(** * mcsapi: lifecycle and game-server status handlers

    A shallow embedding of [src/index.ts].  The handlers are asynchronous
    JavaScript functions that talk to three collaborators: the compute
    instances client, the zone operations client and the Minecraft status
    pinger.  Here every [await] on a collaborator is a step of a small
    state-and-exception monad: the collaborator is a function of the calls
    made so far, each call is appended to the history together with its
    reply, and a rejected promise becomes a thrown error that carries the
    message.  The only loop, the [while (true)] of
    [waitForComputeIOperation], is driven by a fuel counter; running out of
    fuel is a third outcome, distinct from returning and from throwing. *)

From Stdlib Require Import String Ascii List Bool Arith ZArith NArith Lia.
From Stdlib Require Import Decimal DecimalString DecimalPos DecimalN DecimalZ.
Import ListNotations.
Open Scope string_scope.

Set Implicit Arguments.

(** ** JavaScript built-ins used by the source *)

Module Js.

(** The line feed written ["\n"] in the source. *)
Definition LF : string := String "010" EmptyString.

(** A value of type [string | null | undefined]; [None] stands for both
    [null] and [undefined], which the source never tells apart. *)
Definition Str := option string.

(** [ToBoolean]: the empty string, [null] and [undefined] are falsy. *)
Definition ToBoolean (v : Str) : bool :=
  match v with
  | None => false
  | Some s => negb (s =? "")
  end.

(** [a || b] *)
Definition or (a b : Str) : Str := if ToBoolean a then a else b.

Definition undefined : Str := None.

(** [ToString], as applied by template literals and by [+]. *)
Definition ToString (v : Str) : string :=
  match v with
  | Some s => s
  | None => "undefined"
  end.

(** [Array.prototype.filter] with the callback [(x) => x]. *)
Definition filter_truthy (arr : list Str) : list Str :=
  filter ToBoolean arr.

(** [Array.prototype.join]: [null] and [undefined] elements contribute
    the empty string. *)
Definition join (sep : string) (arr : list Str) : string :=
  String.concat sep (map (fun v => match v with Some s => s | None => "" end) arr).

(** A JavaScript number as far as [parseInt] can produce one: [NaN] or
    an integer.  The integer is kept exact, which agrees with the IEEE
    double of the engine up to 2^53. *)
Inductive Number := NaN | Int (z : Z).

(** [Number::toString] for radix 10. *)
Definition Number_toString (n : Number) : string :=
  match n with
  | NaN => "NaN"
  | Int z => NilZero.string_of_int (Z.to_int z)
  end.

(** White space skipped by [parseInt] (the ASCII part of
    [StrWhiteSpaceChar]: TAB, LF, VT, FF, CR, SP). *)
Definition isWhiteSpace (c : ascii) : bool :=
  let n := nat_of_ascii c in
  (((9 <=? n) && (n <=? 13)) || (n =? 32))%nat.

Fixpoint trimStart (s : string) : string :=
  match s with
  | String c s' => if isWhiteSpace c then trimStart s' else s
  | EmptyString => s
  end.

(** Value of [c] as a digit of the given radix (10 or 16). *)
Definition digitValue (radix : Z) (c : ascii) : option Z :=
  let n := Z.of_nat (nat_of_ascii c) in
  let v :=
    (if (48 <=? n) && (n <=? 57) then Some (n - 48)
     else if (97 <=? n) && (n <=? 102) then Some (n - 87)
     else if (65 <=? n) && (n <=? 70) then Some (n - 55)
     else None)%Z in
  match v with
  | Some d => if (d <? radix)%Z then Some d else None
  | None => None
  end.

(** Steps 7 to 9 of [parseInt]: the longest prefix of digits, read in
    the radix; [None] when that prefix is empty. *)
Fixpoint digits (radix : Z) (s : string) (acc : option Z) : option Z :=
  match s with
  | String c s' =>
      match digitValue radix c with
      | Some d =>
          digits radix s' (Some (match acc with Some a => a * radix + d | None => d end)%Z)
      | None => acc
      end
  | EmptyString => acc
  end.

(** [parseInt(string)] with the radix left out, on an input that has
    already been through [ToString]. *)
Definition parseInt_string (input : string) : Number :=
  let s := trimStart input in
  let (sign, s) :=
    match s with
    | String "-" s' => ((-1)%Z, s')
    | String "+" s' => (1%Z, s')
    | _ => (1%Z, s)
    end in
  let (radix, s) :=
    match s with
    | String "0" (String "x" s') => (16%Z, s')
    | String "0" (String "X" s') => (16%Z, s')
    | _ => (10%Z, s)
    end in
  match digits radix s None with
  | Some m => Int (sign * m)
  | None => NaN
  end.

(** The values the probe may hold in a field read as a number: a string
    or an integer number ([null] and [undefined] are the [None] of the
    enclosing option). *)
Inductive Prim := PStr (s : string) | PNum (z : Z).

Definition Prim_toString (v : option Prim) : string :=
  match v with
  | Some (PStr s) => s
  | Some (PNum z) => Number_toString (Int z)
  | None => "undefined"
  end.

Definition parseInt (v : option Prim) : Number :=
  parseInt_string (Prim_toString v).

End Js.

(** ** Data exchanged with the collaborators *)

(** An access configuration of a network interface ([IAccessConfig]). *)
Module IAccessConfig.
Record t := { natIP : Js.Str }.
End IAccessConfig.

(** [INetworkInterface] *)
Module INetworkInterface.
Record t := { accessConfigs : option (list IAccessConfig.t) }.
End INetworkInterface.

(** The instance metadata returned by [instancesClient.get] ([IInstance]):
    an object, by the type of the client, in which every field may be
    missing. *)
Module IInstance.
Record t := {
  networkInterfaces : option (list INetworkInterface.t);
  status : Js.Str
}.
End IInstance.

(** A zone operation ([IOperation]): what [zoneOperationsClient.wait]
    resolves to, and the [latestResponse] of a long-running operation. *)
Module IOperation.
Record t := {
  name : string;
  status : Js.Str;
  statusMessage : Js.Str;
  warnings : option (list string)
}.
End IOperation.

(** The first element of what [instancesClient.start] and
    [instancesClient.stop] resolve to. *)
Module LROperation.
Record t := { latestResponse : IOperation.t }.
End LROperation.

(** The answer of [mc.lookup], down the path the handlers read. *)
Module Player.
Record t := { name : string; id : string }.
End Player.

Module Players.
Record t := {
  online : option Js.Prim;
  sample : option (list Player.t)
}.
End Players.

Module StatusPayload.
Record t := { players : option Players.t }.
End StatusPayload.

Module ServerStatus.
Record t := { status : option StatusPayload.t }.
End ServerStatus.

(** The part of an express request the handlers read. *)
Module Params.
Record t := { zone : Js.Str; instance : Js.Str }.
End Params.

Module Request.
(** [query] is always an object.  [body] is what a body parser upstream
    left in [req.body]: an object, or [undefined] ([None]) when no parser
    has filled it; the program installs none of its own. *)
Record t := { query : Params.t; body : option Params.t }.
End Request.

(** The express response object: [res.status], [res.contentType] and
    [res.send] write to it. *)
Module Response.
Record t := {
  statusCode : nat;
  contentType : option string;
  sent : option string
}.
Definition fresh : t :=
  {| statusCode := 200; contentType := None; sent := None |}.
End Response.

(** ** Promises, calls and the world *)

(** A settled promise. *)
Inductive Settled (A : Type) :=
| Resolved (value : A)
| Rejected (message : string).
Arguments Rejected {A} message.

(** One call to a collaborator, with the way its promise settled. *)
Inductive Call :=
| CallStart (project zone instance : string) (r : Settled LROperation.t)
| CallStop (project zone instance : string) (r : Settled LROperation.t)
| CallGet (project zone instance : string) (r : Settled IInstance.t)
| CallWait (operation project zone : string) (r : Settled IOperation.t)
| CallLookup (host : string) (r : Settled ServerStatus.t).

(** The collaborators.  Each answers as a function of the calls made
    before and of its arguments, so that a scripted fake and a stateful
    control plane are both instances.  [project] is the constant resolved
    once by [instancesClient.getProjectId()]; [JSON_stringify] stands for
    [JSON.stringify(_, null, 2)] on a probe answer. *)
Record Collaborators := {
  project : string;
  instancesClient_start : list Call -> string -> string -> string -> Settled LROperation.t;
  instancesClient_stop : list Call -> string -> string -> string -> Settled LROperation.t;
  instancesClient_get : list Call -> string -> string -> string -> Settled IInstance.t;
  zoneOperationsClient_wait : list Call -> string -> string -> string -> Settled IOperation.t;
  mc_lookup : list Call -> string -> Settled ServerStatus.t;
  JSON_stringify : ServerStatus.t -> string
}.

Inductive Level := Debug | Info | Warn | Error.

Record World := {
  history : list Call;
  console : list (Level * string);
  res : Response.t
}.

Definition initial : World :=
  {| history := []; console := []; res := Response.fresh |}.

(** How an asynchronous function ends: it returns, it throws an error
    with a message, or it is still running when the fuel is spent. *)
Inductive Outcome (A : Type) :=
| Returned (a : A)
| Threw (message : string)
| Running.
Arguments Threw {A} message.
Arguments Running {A}.

Definition Task (A : Type) : Type := World -> Outcome A * World.

Definition ret {A} (a : A) : Task A := fun w => (Returned a, w).

Definition throw {A} (message : string) : Task A := fun w => (Threw message, w).

Definition bind {A B} (m : Task A) (k : A -> Task B) : Task B :=
  fun w =>
    match m w with
    | (Returned a, w') => k a w'
    | (Threw e, w') => (Threw e, w')
    | (Running, w') => (Running, w')
    end.

(** [try { body } catch (err) { handler }], [err.message] being what the
    handler is given. *)
Definition try_catch {A} (body : Task A) (handler : string -> Task A) : Task A :=
  fun w =>
    match body w with
    | (Threw e, w') => handler e w'
    | r => r
    end.

Declare Scope task_scope.
Delimit Scope task_scope with task.
Notation "x <- m ;; k" := (bind m (fun x => k))
  (at level 100, m at next level, right associativity) : task_scope.
Notation "m ;; k" := (bind m (fun _ => k))
  (at level 100, right associativity) : task_scope.
Notation "' ( x , y ) <- m ;; k" := (bind m (fun p => let '(x, y) := p in k))
  (at level 100, m at next level, x name, y name, right associativity) : task_scope.
Open Scope task_scope.

Definition log (l : Level) (message : string) : Task unit :=
  fun w =>
    (Returned tt,
     {| history := history w; console := console w ++ [(l, message)]; res := res w |}).

(** [await] on a collaborator: the call is recorded with its settlement,
    and a rejection is thrown. *)
Definition await {A} (r : Settled A) (c : Call) : Task A :=
  fun w =>
    let w' := {| history := history w ++ [c]; console := console w; res := res w |} in
    match r with
    | Resolved a => (Returned a, w')
    | Rejected e => (Threw e, w')
    end.

Definition res_status (code : nat) : Task unit :=
  fun w =>
    (Returned tt,
     {| history := history w; console := console w;
        res := {| Response.statusCode := code;
                  Response.contentType := Response.contentType (res w);
                  Response.sent := Response.sent (res w) |} |}).

Definition res_contentType (type : string) : Task unit :=
  fun w =>
    (Returned tt,
     {| history := history w; console := console w;
        res := {| Response.statusCode := Response.statusCode (res w);
                  Response.contentType := Some type;
                  Response.sent := Response.sent (res w) |} |}).

Definition res_send (body : string) : Task unit :=
  fun w =>
    (Returned tt,
     {| history := history w; console := console w;
        res := {| Response.statusCode := Response.statusCode (res w);
                  Response.contentType := Response.contentType (res w);
                  Response.sent := Some body |} |}).

(** ** The program *)

(** Optional chaining [a?.f] and [a?.[0]]. *)
Definition chain {A B} (a : option A) (f : A -> option B) : option B :=
  match a with
  | Some x => f x
  | None => None
  end.

Definition first {A} (a : option (list A)) : option A :=
  chain a (@hd_error A).

(** [v === "DONE"] *)
Definition is_DONE (v : Js.Str) : bool :=
  match v with
  | Some s => s =? "DONE"
  | None => false
  end.

(** The text of the [TypeError] thrown when a property is read from
    [undefined]. *)
Definition unreadable (name : string) : string :=
  "Cannot read properties of undefined (reading '" ++ name ++ "')".

(** [req.body.name]: reading a property of a body that is [undefined]
    throws. *)
Definition body_member (body : option Params.t) (field : Params.t -> Js.Str)
    (name : string) : Task Js.Str :=
  match body with
  | Some b => ret (field b)
  | None => throw (unreadable name)
  end.

Section Program.

Variable C : Collaborators.

(** [await] on a call to a collaborator: the collaborator sees the calls
    made so far, the call is recorded with its settlement, a rejection is
    thrown. *)
Definition call {A} (ask : list Call -> Settled A) (record : Settled A -> Call) : Task A :=
  fun w => await (ask (history w)) (record (ask (history w))) w.

(** [function reqZoneInstance(req)] *)
Definition reqZoneInstance (req : Request.t) : Task (string * string) :=
  zone <- (if Js.ToBoolean (Params.zone (Request.query req))
           then ret (Params.zone (Request.query req))
           else body_member (Request.body req) Params.zone "zone") ;;
  instance <- (if Js.ToBoolean (Params.instance (Request.query req))
               then ret (Params.instance (Request.query req))
               else body_member (Request.body req) Params.instance "instance") ;;
  if negb (Js.ToBoolean zone) then throw "Required parameter 'zone' missing"
  else if negb (Js.ToBoolean instance) then throw "Required parameter 'instance' missing"
  else ret (Js.ToString zone, Js.ToString instance).

(** The [while (true)] of [waitForComputeIOperation]; it returns at the
    [break]. *)
Fixpoint wait_loop (fuel : nat) (project zone operation : string) : Task unit :=
  match fuel with
  | O => fun w => (Running, w)
  | S fuel' =>
      log Debug ("Waiting " ++ operation ++ " ...") ;;
      iOp <- call (fun h => zoneOperationsClient_wait C h operation project zone)
                  (CallWait operation project zone) ;;
      (if Js.ToBoolean (IOperation.statusMessage iOp)
       then log Error ("Status: " ++ Js.ToString (IOperation.statusMessage iOp))
       else ret tt) ;;
      (match IOperation.warnings iOp with
       | Some (w :: ws) => log Warn ("Warnings: " ++ String.concat ", " (w :: ws))
       | _ => ret tt
       end) ;;
      if is_DONE (IOperation.status iOp) then ret tt
      else wait_loop fuel' project zone operation
  end.

(** [async function waitForComputeIOperation(project, zone, operation)] *)
Definition waitForComputeIOperation (fuel : nat) (project zone operation : string) : Task unit :=
  wait_loop fuel project zone operation ;;
  log Debug ("Done " ++ operation).

(** [async function startInstance(zone, instance)] *)
Definition startInstance (fuel : nat) (zone instance : string) : Task unit :=
  operation <- call (fun h => instancesClient_start C h (project C) zone instance)
                    (CallStart (project C) zone instance) ;;
  let opName := IOperation.name (LROperation.latestResponse operation) in
  waitForComputeIOperation fuel (project C) zone opName.

(** [async function stopInstance(zone, instance)] *)
Definition stopInstance (fuel : nat) (zone instance : string) : Task unit :=
  operation <- call (fun h => instancesClient_stop C h (project C) zone instance)
                    (CallStop (project C) zone instance) ;;
  let opName := IOperation.name (LROperation.latestResponse operation) in
  waitForComputeIOperation fuel (project C) zone opName.

(** [async function getVmInstance(zone, instance)]; the result is the
    array [[ip, status]]. *)
Definition getVmInstance (zone instance : string) : Task (list Js.Str) :=
  inst <- call (fun h => instancesClient_get C h (project C) zone instance)
               (CallGet (project C) zone instance) ;;
  let ip :=
    Js.or (chain (first (chain (first (IInstance.networkInterfaces inst))
                               INetworkInterface.accessConfigs))
                 IAccessConfig.natIP)
          Js.undefined in
  let status := Js.or (IInstance.status inst) Js.undefined in
  ret [ip; status].

(** [async function vmStatusString(zone, instance)] *)
Definition vmStatusString (zone instance : string) : Task string :=
  arr <- getVmInstance zone instance ;;
  ret (Js.join Js.LF (Js.filter_truthy arr) ++ Js.LF).

(** [async function getVmIP(zone, instance)] *)
Definition getVmIP (zone instance : string) : Task Js.Str :=
  arr <- getVmInstance zone instance ;;
  let ip := nth 0 arr Js.undefined in
  if negb (Js.ToBoolean ip)
  then throw ("Instance " ++ zone ++ "/" ++ instance
              ++ " IP address not found - unable to connect MCS")
  else ret ip.

(** The [catch] block shared by the seven handlers. *)
Definition on_error (message : string) : Task unit :=
  log Error message ;;
  res_status 500 ;;
  res_send ("Error: " ++ message).

(** [async function vmStartFunc(req, res)] *)
Definition vmStartFunc (fuel : nat) (req : Request.t) : Task unit :=
  try_catch
    ('(zone, instance) <- reqZoneInstance req ;;
     log Info ("Start " ++ zone ++ "/" ++ instance) ;;
     startInstance fuel zone instance ;;
     text <- vmStatusString zone instance ;;
     res_send text)
    on_error.

(** [async function vmStopFunc(req, res)] *)
Definition vmStopFunc (fuel : nat) (req : Request.t) : Task unit :=
  try_catch
    ('(zone, instance) <- reqZoneInstance req ;;
     log Info ("Stop " ++ zone ++ "/" ++ instance) ;;
     stopInstance fuel zone instance ;;
     text <- vmStatusString zone instance ;;
     res_send text)
    on_error.

(** [async function vmRestartFunc(req, res)] *)
Definition vmRestartFunc (fuel : nat) (req : Request.t) : Task unit :=
  try_catch
    ('(zone, instance) <- reqZoneInstance req ;;
     log Info ("Restart " ++ zone ++ "/" ++ instance) ;;
     stopInstance fuel zone instance ;;
     startInstance fuel zone instance ;;
     text <- vmStatusString zone instance ;;
     res_send text)
    on_error.

(** [async function vmStatusFunc(req, res)] *)
Definition vmStatusFunc (req : Request.t) : Task unit :=
  try_catch
    ('(zone, instance) <- reqZoneInstance req ;;
     log Info ("Get " ++ zone ++ "/" ++ instance) ;;
     text <- vmStatusString zone instance ;;
     res_send text)
    on_error.

(** [await mc.lookup({ host: ip })] *)
Definition lookup (ip : Js.Str) : Task ServerStatus.t :=
  call (fun h => mc_lookup C h (Js.ToString ip)) (CallLookup (Js.ToString ip)).

(** [async function mcsStatusFunc(req, res)] *)
Definition mcsStatusFunc (req : Request.t) : Task unit :=
  try_catch
    ('(zone, instance) <- reqZoneInstance req ;;
     ip <- getVmIP zone instance ;;
     log Info ("Get MCS " ++ Js.ToString ip) ;;
     mcsStatus <- lookup ip ;;
     res_contentType "application/json" ;;
     res_send (JSON_stringify C mcsStatus ++ Js.LF))
    on_error.

(** [async function mcsPlayersFunc(req, res)] *)
Definition mcsPlayersFunc (req : Request.t) : Task unit :=
  try_catch
    ('(zone, instance) <- reqZoneInstance req ;;
     ip <- getVmIP zone instance ;;
     log Info ("Get MCS " ++ Js.ToString ip ++ " number of players") ;;
     mcsStatus <- lookup ip ;;
     let playersCount :=
       Js.parseInt (chain (chain (ServerStatus.status mcsStatus) StatusPayload.players)
                          Players.online) in
     res_send (Js.Number_toString playersCount ++ Js.LF))
    on_error.

(** [async function mcsPlayerListFunc(req, res)]; calling [map] on
    [undefined] throws a [TypeError]. *)
Definition mcsPlayerListFunc (req : Request.t) : Task unit :=
  try_catch
    ('(zone, instance) <- reqZoneInstance req ;;
     ip <- getVmIP zone instance ;;
     log Info ("Get MCS " ++ Js.ToString ip ++ " player list") ;;
     mcsStatus <- lookup ip ;;
     let playersList :=
       chain (chain (ServerStatus.status mcsStatus) StatusPayload.players)
             Players.sample in
     match playersList with
     | None => throw "Cannot read properties of undefined (reading 'map')"
     | Some players =>
         let userList :=
           map (fun player => Player.name player ++ " " ++ Player.id player) players in
         res_send (String.concat Js.LF userList ++ Js.LF)
     end)
    on_error.

(** The routes registered with [app.use]; the handlers that do not poll
    ignore the fuel. *)
Definition app : list (string * (nat -> Request.t -> Task unit)) :=
  [ ("/vm-start", vmStartFunc);
    ("/vm-stop", vmStopFunc);
    ("/vm-restart", vmRestartFunc);
    ("/vm-status", fun _ => vmStatusFunc);
    ("/mcs-status", fun _ => mcsStatusFunc);
    ("/mcs-player-count", fun _ => mcsPlayersFunc);
    ("/mcs-player-list", fun _ => mcsPlayerListFunc) ].

End Program.

(** ** Notions used to state the properties *)

(** The handlers of the Lifecycle Controller. *)
Definition lifecycle (C : Collaborators) : list (nat -> Request.t -> Task unit) :=
  [ vmStartFunc C; vmStopFunc C; vmRestartFunc C; fun _ => vmStatusFunc C ].

(** The wait calls on [operation] answered, in order, by [rs]. *)
Definition polls (operation project zone : string) (rs : list IOperation.t) : list Call :=
  map (fun r => CallWait operation project zone (Resolved r)) rs.

(** Position, counted from 1, of the first response of a wait sequence
    that reports the terminal marker. *)
Fixpoint first_DONE (rs : list IOperation.t) : option nat :=
  match rs with
  | [] => None
  | r :: rs' =>
      if is_DONE (IOperation.status r) then Some 1
      else option_map S (first_DONE rs')
  end.

Definition pending (r : IOperation.t) : Prop := is_DONE (IOperation.status r) = false.

Definition terminal (r : IOperation.t) : Prop := is_DONE (IOperation.status r) = true.

(** The message of the rejection a call ended with, if it did. *)
Definition rejection (c : Call) : option string :=
  match c with
  | CallStart _ _ _ (Rejected m) | CallStop _ _ _ (Rejected m)
  | CallGet _ _ _ (Rejected m) | CallWait _ _ _ (Rejected m)
  | CallLookup _ (Rejected m) => Some m
  | _ => None
  end.

Definition is_start (c : Call) : bool :=
  match c with CallStart _ _ _ _ => true | _ => false end.

Definition is_wait (c : Call) : bool :=
  match c with CallWait _ _ _ _ => true | _ => false end.

Definition is_get (c : Call) : bool :=
  match c with CallGet _ _ _ _ => true | _ => false end.

Definition is_lookup (c : Call) : bool :=
  match c with CallLookup _ _ => true | _ => false end.

Definition is_stop (c : Call) : bool :=
  match c with CallStop _ _ _ _ => true | _ => false end.

(** [sub] occurs in [s]. *)
Definition contains (s sub : string) : Prop :=
  exists before after, s = before ++ sub ++ after.

(** The InstanceState of the specification. *)
Record InstanceState := { address : Js.Str; status : Js.Str }.

(** A field that is present: neither missing nor empty. *)
Definition present (v : Js.Str) : Js.Str :=
  match v with
  | Some "" => None
  | _ => v
  end.

(** The external address at the head of the metadata: the first access
    configuration of the first network interface. *)
Definition first_natIP (inst : IInstance.t) : Js.Str :=
  match IInstance.networkInterfaces inst with
  | Some (ni :: _) =>
      match INetworkInterface.accessConfigs ni with
      | Some (ac :: _) => IAccessConfig.natIP ac
      | _ => None
      end
  | _ => None
  end.

(** The resolved state, in the words of the specification. *)
Definition resolve (inst : IInstance.t) : InstanceState :=
  {| address := present (first_natIP inst);
     status := present (IInstance.status inst) |}.

(** The status text, in the words of the specification: the present
    fields, address first, one per line, and a line feed at the end. *)
Definition InstanceStatusText (st : InstanceState) : string :=
  match present (address st), present (status st) with
  | Some a, Some s => a ++ Js.LF ++ s ++ Js.LF
  | Some a, None => a ++ Js.LF
  | None, Some s => s ++ Js.LF
  | None, None => Js.LF
  end.

(** The player list, in the words of the specification. *)
Fixpoint PlayerListText (players : list Player.t) : string :=
  match players with
  | [] => Js.LF
  | [p] => Player.name p ++ " " ++ Player.id p ++ Js.LF
  | p :: rest => Player.name p ++ " " ++ Player.id p ++ Js.LF ++ PlayerListText rest
  end.

(** The path [mcsStatus?.status?.players] of a probe answer. *)
Definition players_of (mcsStatus : ServerStatus.t) : option Players.t :=
  match ServerStatus.status mcsStatus with
  | Some payload => StatusPayload.players payload
  | None => None
  end.

(** The calls of one run of the poller on [operation]: some pending
    answers, closed by a terminal answer when the poller returns, by a
    rejection when it throws, and by nothing when it is still running. *)
Definition poll_run (operation project zone : string) (out : Outcome unit)
    (calls : list Call) : Prop :=
  exists rs, Forall pending rs /\
    match out with
    | Returned _ =>
        exists last, terminal last /\ calls = polls operation project zone (rs ++ [last])
    | Threw e =>
        calls =
          (polls operation project zone rs ++ [CallWait operation project zone (Rejected e)])%list
    | Running => calls = polls operation project zone rs
    end.

(** The calls of [startInstance] or [stopInstance]: the mutation, then,
    if it was accepted, a run of the poller on the operation it named. *)
Definition mutation_run (mutate : Settled LROperation.t -> Call) (project zone : string)
    (out : Outcome unit) (calls : list Call) : Prop :=
  (exists e, out = Threw e /\ calls = [mutate (Rejected e)]) \/
  (exists operation tail,
      calls = mutate (Resolved operation) :: tail /\
      poll_run (IOperation.name (LROperation.latestResponse operation)) project zone out tail).

(** No call of the list satisfies [kind]. *)
Definition lacks (kind : Call -> bool) (calls : list Call) : Prop :=
  Forall (fun c => kind c = false) calls.

(** A task that only talks to the collaborators: it leaves the response
    alone and appends to the history calls that satisfy [shape]. *)
Definition appends {A} (t : Task A) (shape : Outcome A -> list Call -> Prop) : Prop :=
  forall w,
    res (snd (t w)) = res w /\
    exists calls, history (snd (t w)) = (history w ++ calls)%list /\ shape (fst (t w)) calls.

(** The calls of the work of a restart: those of the stop, followed, if
    the stop returned, by those of the start. *)
Definition restart_run (project zone instance : string) (out : Outcome unit)
    (calls : list Call) : Prop :=
  exists out1 stop_calls,
    mutation_run (CallStop project zone instance) project zone out1 stop_calls /\
    match out1 with
    | Returned _ =>
        exists start_calls,
          calls = (stop_calls ++ start_calls)%list /\
          mutation_run (CallStart project zone instance) project zone out start_calls
    | _ => out = out1 /\ calls = stop_calls
    end.

Definition is_rejected (c : Call) : bool :=
  match rejection c with
  | Some _ => true
  | None => false
  end.

(** A rejected call is the last call, and its message is what is thrown. *)
Definition stops_at_rejection (out : Outcome unit) (calls : list Call) : Prop :=
  forall before c after m,
    calls = (before ++ c :: after)%list -> rejection c = Some m ->
    after = [] /\ out = Threw m.

(** The same metadata without any access configuration. *)
Definition without_accessConfigs (inst : IInstance.t) : IInstance.t :=
  {| IInstance.networkInterfaces :=
       option_map (map (fun _ => {| INetworkInterface.accessConfigs := None |}))
                  (IInstance.networkInterfaces inst);
     IInstance.status := IInstance.status inst |}.

(** The world after the metadata has been fetched. *)
Definition fetched (C : Collaborators) (zone instance : string) (w : World) : World :=
  {| history :=
       (history w ++
        [CallGet (project C) zone instance
           (instancesClient_get C (history w) (project C) zone instance)])%list;
     console := console w; res := res w |}.

(** What the body of a request holds for a parameter: nothing when there
    is no body. *)
Definition in_body (field : Params.t -> Js.Str) (req : Request.t) : Js.Str :=
  match Request.body req with
  | Some b => present (field b)
  | None => None
  end.

(** A parameter is missing from a request when neither the query nor the
    body holds a non-empty value for it. *)
Definition missing (field : Params.t -> Js.Str) (req : Request.t) : Prop :=
  present (field (Request.query req)) = None /\
  in_body field req = None.

(** The value of a parameter: the one of the query if it is present,
    else the one of the body if it is present; the message of the
    [TypeError] when the body has to be read and there is none. *)
Definition param (field : Params.t -> Js.Str) (name : string) (req : Request.t)
    : string + Js.Str :=
  match present (field (Request.query req)) with
  | Some v => inr (Some v)
  | None =>
      match Request.body req with
      | Some b => inr (present (field b))
      | None => inl (unreadable name)
      end
  end.

(** The outcome of the parameter check: the zone and the instance, or the
    message of the error.  Both parameters are read before either is
    checked. *)
Definition checked (req : Request.t) : string + (string * string) :=
  match param Params.zone "zone" req with
  | inl e => inl e
  | inr zone =>
      match param Params.instance "instance" req with
      | inl e => inl e
      | inr instance =>
          match zone, instance with
          | None, _ => inl "Required parameter 'zone' missing"
          | Some _, None => inl "Required parameter 'instance' missing"
          | Some zone, Some instance => inr (zone, instance)
          end
      end
  end.

(** The response after [res.status(500).send("Error: " + message)]. *)
Definition failed (r : Response.t) (message : string) : Response.t :=
  {| Response.statusCode := 500;
     Response.contentType := Response.contentType r;
     Response.sent := Some ("Error: " ++ message) |}.

(** The response after [res.send(body)]. *)
Definition succeeded (r : Response.t) (body : string) : Response.t :=
  {| Response.statusCode := Response.statusCode r;
     Response.contentType := Response.contentType r;
     Response.sent := Some body |}.

(** The message of [getVmIP] when the instance has no address. *)
Definition not_found (zone instance : string) : string :=
  "Instance " ++ zone ++ "/" ++ instance ++ " IP address not found - unable to connect MCS".

(** The shape the four lifecycle handlers share: check the parameters,
    log, do the work, render the status. *)
Definition lifecycle_handler (C : Collaborators) (label : string)
    (work : string -> string -> Task unit) (req : Request.t) : Task unit :=
  try_catch
    ('(zone, instance) <- reqZoneInstance req ;;
     log Info (label ++ zone ++ "/" ++ instance) ;;
     work zone instance ;;
     text <- vmStatusString C zone instance ;;
     res_send text)
    on_error.

(** The work of each lifecycle handler. *)
Definition restart (C : Collaborators) (fuel : nat) (zone instance : string) : Task unit :=
  stopInstance C fuel zone instance ;;
  startInstance C fuel zone instance.

Definition nothing (zone instance : string) : Task unit := ret tt.

(** ** A scripted fake of the collaborators

    The [k]-th call of a kind is answered by the [k]-th entry of the
    script of that kind, whatever its arguments; a call beyond the end of
    its script is rejected. *)
Module Fake.

Record Script := {
  starts : list (Settled LROperation.t);
  stops : list (Settled LROperation.t);
  gets : list (Settled IInstance.t);
  waits : list (Settled IOperation.t);
  lookups : list (Settled ServerStatus.t)
}.

Definition answer {A} (script : list (Settled A)) (kind : Call -> bool)
    (h : list Call) : Settled A :=
  nth (length (filter kind h)) script (Rejected "script exhausted").

Definition collaborators (s : Script) : Collaborators :=
  {| project := "proj";
     instancesClient_start := fun h _ _ _ => answer (starts s) is_start h;
     instancesClient_stop := fun h _ _ _ => answer (stops s) is_stop h;
     instancesClient_get := fun h _ _ _ => answer (gets s) is_get h;
     zoneOperationsClient_wait := fun h _ _ _ => answer (waits s) is_wait h;
     mc_lookup := fun h _ => answer (lookups s) is_lookup h;
     JSON_stringify := fun _ => "{}" |}.

Definition op (name : string) (status : string) : IOperation.t :=
  {| IOperation.name := name; IOperation.status := Some status;
     IOperation.statusMessage := None; IOperation.warnings := None |}.

Definition noisy (name : string) (status : string) : IOperation.t :=
  {| IOperation.name := name; IOperation.status := Some status;
     IOperation.statusMessage := Some "quota nearly exhausted";
     IOperation.warnings := Some ["deprecated"; "slow zone"] |}.

Definition accepted (name : string) : Settled LROperation.t :=
  Resolved {| LROperation.latestResponse := op name "RUNNING" |}.

Definition vm (natIP : Js.Str) (status : Js.Str) : IInstance.t :=
  {| IInstance.networkInterfaces :=
       Some [ {| INetworkInterface.accessConfigs :=
                   Some [ {| IAccessConfig.natIP := natIP |} ] |} ];
     IInstance.status := status |}.

Definition powered_off (status : Js.Str) : IInstance.t :=
  {| IInstance.networkInterfaces := None; IInstance.status := status |}.

Definition probe (online : option Js.Prim) (sample : option (list Player.t)) : ServerStatus.t :=
  {| ServerStatus.status :=
       Some {| StatusPayload.players :=
                 Some {| Players.online := online; Players.sample := sample |} |} |}.

Definition request (zone instance : Js.Str) : Request.t :=
  {| Request.query := {| Params.zone := zone; Params.instance := instance |};
     Request.body := Some {| Params.zone := None; Params.instance := None |} |}.

(** A request without query parameters that no body parser has touched. *)
Definition bodyless : Request.t :=
  {| Request.query := {| Params.zone := None; Params.instance := None |};
     Request.body := None |}.

(** Three answers that are not terminal, two of them with a status
    message and warnings, then a terminal one. *)
Definition three_then_DONE : list IOperation.t :=
  [ noisy "op" "RUNNING"; op "op" "PENDING"; noisy "op" "RUNNING"; op "op" "DONE" ].

Definition script (waits : list IOperation.t) (gets : list IInstance.t)
    (lookups : list ServerStatus.t) : Script :=
  {| starts := [accepted "op-start"];
     stops := [accepted "op-stop"];
     gets := map (@Resolved _) gets;
     waits := map (@Resolved _) waits;
     lookups := map (@Resolved _) lookups |}.

Definition running_vm : IInstance.t := vm (Some "1.2.3.4") (Some "RUNNING").

(** A restart that goes well: the stop needs four polls, the start one. *)
Definition smooth : Script :=
  script (three_then_DONE ++ [op "op" "DONE"]) [running_vm] [].

(** A start that needs three polls, the last one terminal. *)
Definition two_then_DONE : Script :=
  script [op "op" "RUNNING"; noisy "op" "RUNNING"; op "op" "DONE"] [running_vm] [].

(** A control plane that rejects the second poll. *)
Definition failing : Script :=
  {| starts := [accepted "op-start"];
     stops := [accepted "op-stop"];
     gets := [Resolved running_vm];
     waits := [Resolved (op "op" "RUNNING"); Rejected "quota exceeded"];
     lookups := [] |}.

Definition req : Request.t := request (Some "zone-a") (Some "vm-1").

(** A running server whose probe answers with the given player data. *)
Definition serving (online : option Js.Prim) (sample : option (list Player.t)) : Script :=
  script [] [running_vm] [probe online sample].

Definition alice_and_bob : list Player.t :=
  [ {| Player.name := "Alice"; Player.id := "u1" |};
    {| Player.name := "Bob"; Player.id := "u2" |} ].

End Fake.

(** ** Notions for the further properties *)

(** The handlers that probe the game server, and those that mutate the
    instance. *)
Definition probes (C : Collaborators) : list (Request.t -> Task unit) :=
  [ mcsStatusFunc C; mcsPlayersFunc C; mcsPlayerListFunc C ].

Definition mutating (C : Collaborators) : list (nat -> Request.t -> Task unit) :=
  [ vmStartFunc C; vmStopFunc C; vmRestartFunc C ].

(** The wait calls on [operation] settled, in order, by [answers]. *)
Definition waits (operation project zone : string)
    (answers : list (Settled IOperation.t)) : list Call :=
  map (CallWait operation project zone) answers.

(** From the history [h] on, the zone operations client settles the
    successive wait calls on [operation] as [answers] says. *)
Definition scripted (C : Collaborators) (h : list Call) (operation project zone : string)
    (answers : list (Settled IOperation.t)) : Prop :=
  forall i a,
    nth_error answers i = Some a ->
    zoneOperationsClient_wait C (h ++ waits operation project zone (firstn i answers))%list
      operation project zone = a.

(** What one turn of the poller writes to the console for the answer [r]:
    the waiting line, the status message if there is one, the warnings if
    there are any. *)
Definition turn_log (operation : string) (r : IOperation.t) : list (Level * string) :=
  let waiting := [(Debug, "Waiting " ++ operation ++ " ...")] in
  let message :=
    match present (IOperation.statusMessage r) with
    | Some m => [(Error, "Status: " ++ m)]
    | None => []
    end in
  let warned :=
    match IOperation.warnings r with
    | Some (w :: ws) => [(Warn, "Warnings: " ++ String.concat ", " (w :: ws))]
    | _ => []
    end in
  (waiting ++ message ++ warned)%list.

(** The call is made for this project, zone and instance; a probe is not
    a call to the control plane and is left alone. *)
Definition concerns (project zone instance : string) (c : Call) : Prop :=
  match c with
  | CallStart p z i _ | CallStop p z i _ | CallGet p z i _ =>
      p = project /\ z = zone /\ i = instance
  | CallWait _ p z _ => p = project /\ z = zone
  | CallLookup _ _ => True
  end.

(** The shape the three probe handlers share: check the parameters,
    resolve the address, probe it, answer with a view of the probe. *)
Definition probe_handler (C : Collaborators) (label : string -> string)
    (view : ServerStatus.t -> Task unit) (req : Request.t) : Task unit :=
  try_catch
    ('(zone, instance) <- reqZoneInstance req ;;
     ip <- getVmIP C zone instance ;;
     log Info (label (Js.ToString ip)) ;;
     mcsStatus <- lookup C ip ;;
     view mcsStatus)
    on_error.

(** A view that, under the [catch] of its handler, calls nobody and sends
    one response, keeping the status code or setting it to 500. *)
Definition responds (view : ServerStatus.t -> Task unit) : Prop :=
  forall mcsStatus w,
    fst (try_catch (view mcsStatus) on_error w) = Returned tt /\
    history (snd (try_catch (view mcsStatus) on_error w)) = history w /\
    (exists body, Response.sent (res (snd (try_catch (view mcsStatus) on_error w))) = Some body) /\
    (Response.statusCode (res (snd (try_catch (view mcsStatus) on_error w)))
       = Response.statusCode (res w) \/
     Response.statusCode (res (snd (try_catch (view mcsStatus) on_error w))) = 500).

(** Scripts for sample runs. *)
Definition rejecting_script : Fake.Script :=
  {| Fake.starts := [Rejected "permission denied"];
     Fake.stops := [Rejected "permission denied"];
     Fake.gets := [Rejected "metadata unavailable"];
     Fake.waits := [];
     Fake.lookups := [Rejected "connection refused"] |}.

Definition unreachable_script : Fake.Script :=
  {| Fake.starts := [];
     Fake.stops := [];
     Fake.gets := [Resolved Fake.running_vm];
     Fake.waits := [];
     Fake.lookups := [Rejected "connection refused"] |}.

Definition never_done : list IOperation.t :=
  [ Fake.op "op" "RUNNING"; Fake.noisy "op" "RUNNING"; Fake.op "op" "PENDING" ].

(** * Properties *)

Open Scope list_scope.
Unset Implicit Arguments.

(** ** The monad *)

Ltac run_task :=
  unfold bind, ret, throw, log, call, await, res_send, res_status, res_contentType; simpl.

(** ** The operation poller *)

Section Poller.

Variable C : Collaborators.
Variables project zone operation : string.

(** One turn of the loop. *)
Lemma wait_loop_turn fuel w :
  exists cs,
    wait_loop C (S fuel) project zone operation w =
      let w1 := {| history := history w ++ [CallWait operation project zone (zoneOperationsClient_wait C (history w) operation project zone)];
                   console := cs; res := res w |} in
      match zoneOperationsClient_wait C (history w) operation project zone with
      | Rejected e => (Threw e, w1)
      | Resolved iOp =>
          if is_DONE (IOperation.status iOp) then (Returned tt, w1)
          else wait_loop C fuel project zone operation w1
      end.
Proof.
  cbn [wait_loop]. run_task.
  destruct (zoneOperationsClient_wait C (history w) operation project zone) as [iOp|e];
    [|eexists; reflexivity].
  destruct (Js.ToBoolean (IOperation.statusMessage iOp));
    destruct (IOperation.warnings iOp) as [[|x ws]|];
    destruct (is_DONE (IOperation.status iOp)); simpl;
    eexists; reflexivity.
Qed.

Lemma wait_loop_shape fuel : forall w out w',
  wait_loop C fuel project zone operation w = (out, w') ->
  res w' = res w /\
  exists calls, history w' = history w ++ calls /\
                poll_run operation project zone out calls.
Proof.
  induction fuel as [|fuel IH]; intros w out w' H.
  - injection H as <- <-. split; [reflexivity|].
    exists []. split; [now rewrite app_nil_r|]. exists []. split; [constructor|reflexivity].
  - destruct (wait_loop_turn fuel w) as [cs E]. rewrite E in H. clear E. cbn zeta in H.
    destruct (zoneOperationsClient_wait C (history w) operation project zone) as [iOp|e] eqn:A.
    + destruct (is_DONE (IOperation.status iOp)) eqn:D.
      * injection H as <- <-. split; [reflexivity|].
        eexists. split; [reflexivity|]. exists []. split; [constructor|].
        exists iOp. split; [exact D|reflexivity].
      * apply IH in H. destruct H as [R [calls [Hh [rs [Hrs Hout]]]]]. cbn in R, Hh.
        split; [exact R|].
        exists (CallWait operation project zone (Resolved iOp) :: calls).
        split; [rewrite Hh, <- app_assoc; reflexivity|].
        exists (iOp :: rs). split; [constructor; [exact D|exact Hrs]|].
        destruct out as [[]|e|].
        -- destruct Hout as [last [T ->]]. exists last. split; [exact T|reflexivity].
        -- rewrite Hout. reflexivity.
        -- rewrite Hout. reflexivity.
    + injection H as <- <-. split; [reflexivity|].
      eexists. split; [reflexivity|]. exists []. split; [constructor|reflexivity].
Qed.

Lemma waitForComputeIOperation_shape fuel w out w' :
  waitForComputeIOperation C fuel project zone operation w = (out, w') ->
  res w' = res w /\
  exists calls, history w' = history w ++ calls /\
                poll_run operation project zone out calls.
Proof.
  unfold waitForComputeIOperation, bind.
  destruct (wait_loop C fuel project zone operation w) as [[[]|e|] w1] eqn:E; intros H;
    apply wait_loop_shape in E.
  - injection H as <- <-. exact E.
  - injection H as <- <-. exact E.
  - injection H as <- <-. exact E.
Qed.

(** The loop driven by a wait sequence whose first terminal answer is at
    position [n]. *)
Lemma wait_loop_first_DONE : forall (rs : list IOperation.t) n fuel w,
  first_DONE rs = Some n ->
  (forall i r, i < n -> nth_error rs i = Some r ->
               zoneOperationsClient_wait C (history w ++ polls operation project zone (firstn i rs))
                   operation project zone = Resolved r) ->
  n <= fuel ->
  exists cs,
    wait_loop C fuel project zone operation w =
      (Returned tt,
       {| history := history w ++ polls operation project zone (firstn n rs);
          console := cs; res := res w |}).
Proof.
  induction rs as [|r rs IH]; intros n fuel w F A L; [discriminate|].
  cbn [first_DONE] in F.
  destruct fuel as [|fuel].
  { destruct (is_DONE (IOperation.status r)); [injection F as <-; lia|].
    destruct (first_DONE rs); [injection F as <-; lia|discriminate]. }
  destruct (wait_loop_turn fuel w) as [cs E]. rewrite E. clear E. cbn zeta.
  assert (A0 : zoneOperationsClient_wait C (history w) operation project zone = Resolved r).
  { specialize (A 0 r). cbn in A. rewrite app_nil_r in A. apply A; [|reflexivity].
    destruct (is_DONE (IOperation.status r)); [injection F as <-; lia|].
    destruct (first_DONE rs); [injection F as <-; lia|discriminate]. }
  rewrite A0.
  destruct (is_DONE (IOperation.status r)) eqn:D.
  - injection F as <-. eexists. reflexivity.
  - destruct (first_DONE rs) as [m|] eqn:Fm; [|discriminate]. injection F as <-.
    edestruct (IH m fuel) as [cs' E']; [reflexivity| |lia|].
    2:{ rewrite E'. eexists. cbn [history res firstn polls map].
        rewrite <- app_assoc. reflexivity. }
    intros i r' Hi Hn. cbn [history].
    rewrite <- app_assoc. apply (A (S i) r'); [lia|exact Hn].
Qed.

End Poller.

Lemma first_DONE_bounds : forall rs n, first_DONE rs = Some n -> 1 <= n <= length rs.
Proof.
  induction rs as [|r rs IH]; intros n F; [discriminate|]. cbn in F |- *.
  destruct (is_DONE (IOperation.status r)); [injection F as <-; lia|].
  destruct (first_DONE rs) as [m|]; [|discriminate]. injection F as <-.
  specialize (IH m eq_refl). lia.
Qed.

Lemma filter_is_wait_polls operation project zone rs :
  filter is_wait (polls operation project zone rs) = polls operation project zone rs.
Proof.
  induction rs as [|r rs IH]; [reflexivity|].
  cbn [polls map filter is_wait]. fold (polls operation project zone rs). now rewrite IH.
Qed.

Lemma length_polls operation project zone rs :
  length (polls operation project zone rs) = length rs.
Proof. apply length_map. Qed.

(** C1.  Whatever the collaborator, if its answers to the successive wait
    calls are the sequence [rs], and the first answer of [rs] with status
    ["DONE"] is at position [n], then [waitForComputeIOperation] with at
    least [n] turns of fuel returns, and what it added to the history is
    exactly the [n] wait calls answered by the first [n] elements of
    [rs]: the terminal answer is the last call, and the answers before it,
    with or without status message and warnings, did not stop the loop. *)
Theorem poller_returns_at_first_DONE
    (C : Collaborators) (project zone operation : string)
    (rs : list IOperation.t) (n fuel : nat) (w : World) :
  first_DONE rs = Some n ->
  (forall i r, i < n -> nth_error rs i = Some r ->
     zoneOperationsClient_wait C (history w ++ polls operation project zone (firstn i rs))
       operation project zone = Resolved r) ->
  n <= fuel ->
  let run := waitForComputeIOperation C fuel project zone operation w in
  fst run = Returned tt /\
  history (snd run) = history w ++ polls operation project zone (firstn n rs) /\
  length (filter is_wait (history (snd run))) = length (filter is_wait (history w)) + n /\
  res (snd run) = res w.
Proof.
  intros F A L run. subst run.
  destruct (wait_loop_first_DONE C project zone operation rs n fuel w F A L) as [cs E].
  unfold waitForComputeIOperation, bind. rewrite E. unfold log. cbn [fst snd history res].
  repeat split; try reflexivity.
  rewrite filter_app, length_app, filter_is_wait_polls, length_polls, length_firstn.
  apply first_DONE_bounds in F. lia.
Qed.

(** Three answers that are not terminal, then a terminal one: four calls. *)
Lemma poller_returns_at_first_DONE_witness :
  let C := Fake.collaborators (Fake.script Fake.three_then_DONE [] []) in
  let run := waitForComputeIOperation C 4 "proj" "zone-a" "op" initial in
  fst run = Returned tt /\
  history (snd run) = polls "op" "proj" "zone-a" Fake.three_then_DONE /\
  length (filter is_wait (history (snd run))) = 4 /\
  res (snd run) = Response.fresh.
Proof.
  intros C.
  apply (poller_returns_at_first_DONE C "proj" "zone-a" "op" Fake.three_then_DONE
           4 4 initial).
  - reflexivity.
  - intros i r Hi Hn.
    do 4 (destruct i as [|i]; [injection Hn as <-; reflexivity|]). lia.
  - lia.
Defined.

(** ** Requests *)

Lemma reqZoneInstance_run req w :
  reqZoneInstance req w =
    (match checked req with
     | inl e => Threw e
     | inr zi => Returned zi
     end, w).
Proof.
  destruct req as [[qz qi] body]. unfold reqZoneInstance, checked, param, bind. cbn.
  destruct qz as [[|? ?]|], qi as [[|? ?]|], body as [[[[|? ?]|] [[|? ?]|]]|];
    reflexivity.
Qed.

Lemma rejected_request {A} req (k : string * string -> Task A) e w :
  checked req = inl e ->
  bind (reqZoneInstance req) k w = (Threw e, w).
Proof.
  intros H. unfold bind. rewrite reqZoneInstance_run, H. reflexivity.
Qed.

Lemma accepted_request {A} req (k : string * string -> Task A) zi w :
  checked req = inr zi ->
  bind (reqZoneInstance req) k w = k zi w.
Proof.
  intros H. unfold bind. rewrite reqZoneInstance_run, H. reflexivity.
Qed.

Lemma handler_rejects req (k : string * string -> Task unit) e w :
  checked req = inl e ->
  try_catch (bind (reqZoneInstance req) k) on_error w = on_error e w.
Proof.
  intros H. unfold try_catch. now rewrite (rejected_request req k e w H).
Qed.

Lemma route_rejects C path h fuel req e w :
  In (path, h) (app C) ->
  checked req = inl e ->
  h fuel req w = on_error e w.
Proof.
  intros I H. cbn in I.
  repeat (destruct I as [I|I]; [injection I as _ <-; now apply handler_rejects|]).
  contradiction.
Qed.

(** The check of a request that lacks a parameter fails, and with which
    message. *)
Lemma missing_checked req :
  missing Params.zone req \/ missing Params.instance req ->
  exists e, checked req = inl e /\
    (forall b, Request.body req = Some b ->
       (missing Params.zone req -> e = "Required parameter 'zone' missing"%string) /\
       (~ missing Params.zone req -> e = "Required parameter 'instance' missing"%string)) /\
    (Request.body req = None ->
       (present (Params.zone (Request.query req)) = None -> e = unreadable "zone") /\
       (present (Params.zone (Request.query req)) <> None -> e = unreadable "instance")).
Proof.
  destruct req as [[qz qi] body]. unfold missing, in_body, checked, param. cbn.
  destruct qz as [[|? ?]|], qi as [[|? ?]|], body as [[[[|? ?]|] [[|? ?]|]]|]; cbn;
    intros [[Q B]|[Q B]]; try discriminate;
    (eexists; split; [reflexivity|]);
    repeat split; intros;
    first
      [ reflexivity
      | discriminate
      | match goal with H : _ /\ _ |- _ => destruct H; discriminate end
      | match goal with
        | H : ~ _ |- _ => exfalso; apply H; first [reflexivity | split; reflexivity]
        end ].
Qed.

(** C10.  The code at the request the property fails on.  A request with
    neither parameter in the query and with no body is answered before
    any call is made, with status 500, as the property says; but the
    message is that of the [TypeError] raised by reading [req.body.zone],
    which comes before the check of the zone, and not the message of
    that check. *)
Theorem bodyless_request_reports_the_body_read :
  fst (vmRestartFunc (Fake.collaborators Fake.smooth) 8 Fake.bodyless initial) = Returned tt /\
  history (snd (vmRestartFunc (Fake.collaborators Fake.smooth) 8 Fake.bodyless initial)) = [] /\
  missing Params.zone Fake.bodyless /\ missing Params.instance Fake.bodyless /\
  res (snd (vmRestartFunc (Fake.collaborators Fake.smooth) 8 Fake.bodyless initial))
    = {| Response.statusCode := 500; Response.contentType := None;
         Response.sent :=
           Some "Error: Cannot read properties of undefined (reading 'zone')"%string |} /\
  Response.sent
    (res (snd (vmRestartFunc (Fake.collaborators Fake.smooth) 8 Fake.bodyless initial)))
    <> Some "Error: Required parameter 'zone' missing"%string.
Proof.
  split; [reflexivity|]. split; [reflexivity|]. split; [now split|]. split; [now split|].
  split; [reflexivity|]. discriminate.
Qed.

(** X18.  A request that lacks the zone or the instance, in the query and
    in the body or for want of a body, is answered by every route with
    status 500 and without a single call to the control plane or to the
    probe: the history is left as it was.  When the request has a body
    the zone is checked first: if it is missing, whether or not the
    instance is, the body of the response is the zone message, and the
    instance message is sent only when the zone is there.  When the
    request has no body the response carries the message of the
    [TypeError] raised by reading the first parameter that the query
    lacks. *)
Theorem missing_parameter_calls_nobody
    (C : Collaborators) (path : string) (h : nat -> Request.t -> Task unit)
    (fuel : nat) (req : Request.t) (w : World) :
  In (path, h) (app C) ->
  missing Params.zone req \/ missing Params.instance req ->
  let run := h fuel req w in
  fst run = Returned tt /\
  history (snd run) = history w /\
  Response.statusCode (res (snd run)) = 500 /\
  (forall b, Request.body req = Some b ->
     (missing Params.zone req ->
      Response.sent (res (snd run)) = Some "Error: Required parameter 'zone' missing"%string) /\
     (~ missing Params.zone req ->
      Response.sent (res (snd run))
        = Some "Error: Required parameter 'instance' missing"%string)) /\
  (Request.body req = None ->
     (present (Params.zone (Request.query req)) = None ->
      Response.sent (res (snd run)) = Some ("Error: " ++ unreadable "zone")%string) /\
     (present (Params.zone (Request.query req)) <> None ->
      Response.sent (res (snd run)) = Some ("Error: " ++ unreadable "instance")%string)).
Proof.
  intros I M run.
  destruct (missing_checked req M) as [e [Hc [Hb Hn]]].
  subst run. rewrite (route_rejects C path h fuel req e w I Hc).
  cbn [on_error]. unfold bind, log, res_status, res_send.
  cbn [fst snd history res Response.statusCode Response.sent].
  split; [reflexivity|]. split; [reflexivity|]. split; [reflexivity|]. split.
  - intros b E. destruct (Hb b E) as [Z N]. split; intros X.
    + now rewrite (Z X).
    + now rewrite (N X).
  - intros E. destruct (Hn E) as [Z N]. split; intros X.
    + now rewrite (Z X).
    + now rewrite (N X).
Qed.

(** Neither parameter anywhere, in a request with an empty body: the
    restart route reports the zone. *)
Lemma missing_parameter_calls_nobody_witness :
  let C := Fake.collaborators (Fake.script Fake.three_then_DONE [] []) in
  let run := vmRestartFunc C 8 (Fake.request None (Some "")) initial in
  fst run = Returned tt /\
  history (snd run) = [] /\
  Response.statusCode (res (snd run)) = 500 /\
  Response.sent (res (snd run)) = Some "Error: Required parameter 'zone' missing"%string.
Proof.
  intros C.
  assert (M : missing Params.zone (Fake.request None (Some ""))) by (split; reflexivity).
  assert (I : In ("/vm-restart"%string, vmRestartFunc C) (app C)).
  { cbn. right. right. left. reflexivity. }
  destruct (missing_parameter_calls_nobody C "/vm-restart" (vmRestartFunc C) 8
              (Fake.request None (Some "")) initial I (or_introl M)) as [R [H [S [B _]]]].
  exact (conj R (conj H (conj S (proj1 (B _ eq_refl) M)))).
Defined.

(** ** Strings *)

Lemma append_assoc (a b c : string) : (a ++ (b ++ c))%string = ((a ++ b) ++ c)%string.
Proof. induction a as [|x a IH]; [reflexivity|]. cbn. now rewrite IH. Qed.

(** ** The instance state resolver *)

Lemma or_undefined v : Js.or v Js.undefined = present v.
Proof. destruct v as [[|c s]|]; reflexivity. Qed.

Lemma present_idempotent v : present (present v) = present v.
Proof. destruct v as [[|c s]|]; reflexivity. Qed.

Lemma present_truthy v :
  Js.ToBoolean (present v) = match present v with Some _ => true | None => false end.
Proof. destruct v as [[|c s]|]; reflexivity. Qed.

Lemma chained_natIP inst :
  chain (first (chain (first (IInstance.networkInterfaces inst))
                      INetworkInterface.accessConfigs))
        IAccessConfig.natIP = first_natIP inst.
Proof.
  unfold first_natIP, first, chain.
  destruct (IInstance.networkInterfaces inst) as [[|ni nis]|]; try reflexivity. cbn.
  destruct (INetworkInterface.accessConfigs ni) as [[|ac acs]|]; reflexivity.
Qed.

Section Resolver.

Variable C : Collaborators.
Variables zone instance : string.

Lemma getVmInstance_run w :
  getVmInstance C zone instance w =
    (match instancesClient_get C (history w) (project C) zone instance with
     | Resolved inst => Returned [address (resolve inst); status (resolve inst)]
     | Rejected e => Threw e
     end, fetched C zone instance w).
Proof.
  unfold getVmInstance, fetched. run_task.
  destruct (instancesClient_get C (history w) (project C) zone instance) as [inst|e];
    [|reflexivity].
  now rewrite !or_undefined, chained_natIP.
Qed.

Lemma status_text_joined st :
  (Js.join Js.LF (Js.filter_truthy [address st; status st]) ++ Js.LF)%string
  = InstanceStatusText st.
Proof.
  destruct st as [[[|c a]|] [[|d s]|]]; cbn; try reflexivity.
  unfold InstanceStatusText. cbn. now rewrite <- append_assoc.
Qed.

Lemma status_text_resolved inst :
  (Js.join Js.LF (Js.filter_truthy [address (resolve inst); status (resolve inst)])
   ++ Js.LF)%string
  = InstanceStatusText (resolve inst).
Proof. apply status_text_joined. Qed.

Lemma vmStatusString_run w :
  vmStatusString C zone instance w =
    (match instancesClient_get C (history w) (project C) zone instance with
     | Resolved inst => Returned (InstanceStatusText (resolve inst))
     | Rejected e => Threw e
     end, fetched C zone instance w).
Proof.
  unfold vmStatusString, bind. rewrite getVmInstance_run.
  destruct (instancesClient_get C (history w) (project C) zone instance) as [inst|e];
    [|reflexivity].
  unfold ret. now rewrite status_text_resolved.
Qed.

Lemma getVmIP_run w :
  getVmIP C zone instance w =
    (match instancesClient_get C (history w) (project C) zone instance with
     | Resolved inst =>
         match address (resolve inst) with
         | Some ip => Returned (Some ip)
         | None => Threw (not_found zone instance)
         end
     | Rejected e => Threw e
     end, fetched C zone instance w).
Proof.
  unfold getVmIP, bind. rewrite getVmInstance_run.
  destruct (instancesClient_get C (history w) (project C) zone instance) as [inst|e];
    [|reflexivity].
  cbn [nth]. cbn [resolve address]. rewrite present_truthy.
  destruct (present (first_natIP inst)); reflexivity.
Qed.

End Resolver.

(** ** The lifecycle handlers *)

Section Lifecycle.

Variable C : Collaborators.

Lemma vmStartFunc_shape fuel req w :
  vmStartFunc C fuel req w = lifecycle_handler C "Start " (startInstance C fuel) req w.
Proof. reflexivity. Qed.

Lemma vmStopFunc_shape fuel req w :
  vmStopFunc C fuel req w = lifecycle_handler C "Stop " (stopInstance C fuel) req w.
Proof. reflexivity. Qed.

Lemma vmRestartFunc_shape fuel req w :
  vmRestartFunc C fuel req w = lifecycle_handler C "Restart " (restart C fuel) req w.
Proof.
  unfold vmRestartFunc, lifecycle_handler, try_catch, bind. rewrite reqZoneInstance_run.
  destruct (checked req) as [e|[zone instance]]; [reflexivity|].
  unfold restart, bind, log.
  destruct (stopInstance C fuel zone instance _) as [[[]|e|] w1]; reflexivity.
Qed.

Lemma vmStatusFunc_shape req w :
  vmStatusFunc C req w = lifecycle_handler C "Get " nothing req w.
Proof. reflexivity. Qed.

(** What a lifecycle handler does, given what its work does. *)
Lemma lifecycle_handler_run label work req w :
  (forall zone instance w0, res (snd (work zone instance w0)) = res w0) ->
  let run := lifecycle_handler C label work req w in
  match checked req with
  | inl e =>
      fst run = Returned tt /\ history (snd run) = history w /\
      res (snd run) = failed (res w) e
  | inr (zone, instance) =>
      exists w1, history w1 = history w /\ res w1 = res w /\
        match work zone instance w1 with
        | (Threw e, w2) =>
            fst run = Returned tt /\ history (snd run) = history w2 /\
            res (snd run) = failed (res w) e
        | (Running, w2) => fst run = Running /\ snd run = w2
        | (Returned _, w2) =>
            let r := instancesClient_get C (history w2) (project C) zone instance in
            fst run = Returned tt /\
            history (snd run) = history w2 ++ [CallGet (project C) zone instance r] /\
            res (snd run) =
              match r with
              | Resolved inst => succeeded (res w) (InstanceStatusText (resolve inst))
              | Rejected e => failed (res w) e
              end
        end
  end.
Proof.
  intros Q run. subst run. unfold lifecycle_handler, try_catch, bind.
  rewrite reqZoneInstance_run.
  destruct (checked req) as [e|[zone instance]]; [now cbn|].
  unfold log.
  set (w1 := {| history := history w;
                console := console w ++ [(Info, (label ++ zone ++ "/" ++ instance)%string)];
                res := res w |}).
  exists w1. split; [reflexivity|]. split; [reflexivity|].
  pose proof (Q zone instance w1) as Qw.
  destruct (work zone instance w1) as [[[]|e|] w2]; cbn [fst snd] in Qw; cbv beta iota.
  - rewrite vmStatusString_run. unfold fetched.
    destruct (instancesClient_get C (history w2) (project C) zone instance) as [inst|e];
      cbn; rewrite Qw; repeat split.
  - cbn. rewrite Qw. repeat split.
  - split; reflexivity.
Qed.

End Lifecycle.

Section Work.

Variable C : Collaborators.

Lemma mutation_shape (ask : list Call -> Settled LROperation.t)
    (mutate : Settled LROperation.t -> Call) fuel zone :
  appends
    (bind (call ask mutate)
       (fun operation =>
          waitForComputeIOperation C fuel (project C) zone
            (IOperation.name (LROperation.latestResponse operation))))
    (mutation_run mutate (project C) zone).
Proof.
  intros w. unfold bind, call, await.
  destruct (ask (history w)) as [operation|e].
  - match goal with |- context [waitForComputeIOperation C fuel ?p ?z ?o ?w1] =>
      destruct (waitForComputeIOperation C fuel p z o w1) as [out w2] eqn:E end.
    apply waitForComputeIOperation_shape in E. cbn [history res] in E.
    destruct E as [R [calls [H P]]]. cbn [fst snd]. split; [exact R|].
    exists (mutate (Resolved operation) :: calls). split.
    + rewrite H, <- app_assoc. reflexivity.
    + right. exists operation, calls. split; [reflexivity|exact P].
  - cbn. split; [reflexivity|]. eexists. split; [reflexivity|]. left. now exists e.
Qed.

Lemma startInstance_shape fuel zone instance :
  appends (startInstance C fuel zone instance)
          (mutation_run (CallStart (project C) zone instance) (project C) zone).
Proof. apply mutation_shape. Qed.

Lemma stopInstance_shape fuel zone instance :
  appends (stopInstance C fuel zone instance)
          (mutation_run (CallStop (project C) zone instance) (project C) zone).
Proof. apply mutation_shape. Qed.

Lemma restart_shape fuel zone instance :
  appends (restart C fuel zone instance) (restart_run (project C) zone instance).
Proof.
  intros w. unfold restart, bind.
  destruct (stopInstance_shape fuel zone instance w) as [R1 [calls1 [H1 P1]]].
  destruct (stopInstance C fuel zone instance w) as [[[]|e|] w1]; cbn [fst snd] in *.
  - destruct (startInstance_shape fuel zone instance w1) as [R2 [calls2 [H2 P2]]].
    split; [congruence|]. exists (calls1 ++ calls2). split.
    + rewrite H2, H1, <- app_assoc. reflexivity.
    + exists (Returned tt), calls1. split; [exact P1|]. exists calls2. now split.
  - split; [exact R1|]. exists calls1. split; [exact H1|].
    exists (Threw e), calls1. split; [exact P1|]. now split.
  - split; [exact R1|]. exists calls1. split; [exact H1|].
    exists Running, calls1. split; [exact P1|]. now split.
Qed.

Lemma nothing_shape zone instance :
  appends (nothing zone instance) (fun out calls => out = Returned tt /\ calls = []).
Proof.
  intros w. cbn. split; [reflexivity|]. exists []. now rewrite app_nil_r.
Qed.

End Work.

Section Handlers.

Variable C : Collaborators.

(** The calls and the response of a lifecycle handler, from the calls of
    its work. *)
Lemma lifecycle_handler_calls label work
    (shape : string -> string -> Outcome unit -> list Call -> Prop) req w :
  (forall zone instance, appends (work zone instance) (shape zone instance)) ->
  let run := lifecycle_handler C label work req w in
  match checked req with
  | inl e =>
      fst run = Returned tt /\ history (snd run) = history w /\
      res (snd run) = failed (res w) e
  | inr (zone, instance) =>
      exists out calls, shape zone instance out calls /\
        match out with
        | Threw e =>
            fst run = Returned tt /\ history (snd run) = history w ++ calls /\
            res (snd run) = failed (res w) e
        | Running =>
            fst run = Running /\ history (snd run) = history w ++ calls /\
            res (snd run) = res w
        | Returned _ =>
            exists r,
              fst run = Returned tt /\
              history (snd run) =
                history w ++ calls ++ [CallGet (project C) zone instance r] /\
              res (snd run) =
                match r with
                | Resolved inst => succeeded (res w) (InstanceStatusText (resolve inst))
                | Rejected e => failed (res w) e
                end
        end
  end.
Proof.
  intros A run.
  assert (Q : forall zone instance w0, res (snd (work zone instance w0)) = res w0).
  { intros zone instance w0. apply (A zone instance w0). }
  pose proof (lifecycle_handler_run C label work req w Q) as H. fold run in H. cbv zeta in H.
  destruct (checked req) as [e|[zone instance]]; [exact H|].
  destruct H as [w1 [H1 [R1 H]]].
  destruct (A zone instance w1) as [R [calls [Hc S]]].
  destruct (work zone instance w1) as [out w2]. cbn [fst snd] in *.
  exists out, calls. split; [exact S|].
  destruct out as [[]|e|].
  - eexists. destruct H as [F [Hh Hr]]. split; [exact F|]. split; [|exact Hr].
    rewrite Hh, Hc, H1, <- app_assoc. reflexivity.
  - destruct H as [F [Hh Hr]]. split; [exact F|]. split; [|exact Hr].
    rewrite Hh, Hc, H1. reflexivity.
  - destruct H as [F Hs]. split; [exact F|]. rewrite Hs. split; [|congruence].
    rewrite Hc, H1. reflexivity.
Qed.

End Handlers.

(** ** Rejections end the run *)

Lemma split_at_first (kind : Call -> bool) : forall l1 x l2 before c after,
  lacks kind l1 -> kind c = true ->
  l1 ++ x :: l2 = before ++ c :: after ->
  (before = l1 /\ c = x /\ after = l2) \/
  (exists mid, before = l1 ++ x :: mid /\ l2 = mid ++ c :: after).
Proof.
  induction l1 as [|a l1 IH]; intros x l2 before c after L K E.
  - destruct before as [|b before]; cbn in E; injection E as -> E.
    + left. now subst.
    + right. exists before. now subst.
  - inversion L as [|? ? Ka L1]; subst.
    destruct before as [|b before]; cbn in E; injection E as -> E.
    + congruence.
    + destruct (IH x l2 before c after L1 K E) as [[-> [-> ->]]|[mid [-> ->]]].
      * now left.
      * right. now exists mid.
Qed.

Lemma lacks_app kind l1 l2 : lacks kind l1 -> lacks kind l2 -> lacks kind (l1 ++ l2).
Proof. intros H1 H2. apply Forall_app. now split. Qed.

Lemma polls_lack kind operation project zone rs :
  (forall r, kind (CallWait operation project zone (Resolved r)) = false) ->
  lacks kind (polls operation project zone rs).
Proof.
  intros K. induction rs as [|r rs IH]; constructor; [apply K|exact IH].
Qed.

Lemma lacks_no_split kind l before c after :
  lacks kind l -> kind c = true -> l <> before ++ c :: after.
Proof.
  intros L K ->. apply Forall_app in L. destruct L as [_ L].
  inversion L; subst. congruence.
Qed.

Lemma rejected_is_rejected c m : rejection c = Some m -> is_rejected c = true.
Proof. unfold is_rejected. now intros ->. Qed.

Lemma no_rejection_stops out calls : lacks is_rejected calls -> stops_at_rejection out calls.
Proof.
  intros L before c after m E R. exfalso.
  exact (lacks_no_split is_rejected calls before c after L (rejected_is_rejected c m R) E).
Qed.

Lemma returned_lacks_rejection calls :
  stops_at_rejection (Returned tt) calls -> lacks is_rejected calls.
Proof.
  intros S. apply Forall_forall. intros c I.
  destruct (in_split _ _ I) as [before [after E]].
  unfold is_rejected. destruct (rejection c) as [m|] eqn:R; [|reflexivity].
  destruct (S before c after m E R) as [_ A]. discriminate.
Qed.

Lemma stops_at_rejection_app out l1 l2 :
  lacks is_rejected l1 -> stops_at_rejection out l2 -> stops_at_rejection out (l1 ++ l2).
Proof.
  intros L S before c after m E R.
  destruct l2 as [|x l2].
  - exfalso. rewrite app_nil_r in E.
    exact (lacks_no_split is_rejected l1 before c after L (rejected_is_rejected c m R) E).
  - destruct (split_at_first is_rejected l1 x l2 before c after L
                (rejected_is_rejected c m R) E) as [[-> [-> ->]]|[mid [-> ->]]].
    + apply (S [] x l2 m eq_refl R).
    + apply (S (x :: mid) c after m eq_refl R).
Qed.

Lemma poll_run_stops operation project zone out calls :
  poll_run operation project zone out calls -> stops_at_rejection out calls.
Proof.
  intros [rs [_ P]].
  assert (L : forall l, lacks is_rejected (polls operation project zone l)).
  { intros l. now apply polls_lack. }
  destruct out as [[]|e|].
  - destruct P as [last [_ ->]]. apply no_rejection_stops, L.
  - subst calls. apply stops_at_rejection_app; [apply L|].
    intros before c after m E R.
    destruct before as [|b before]; cbn in E.
    + injection E as <- <-. cbn in R. injection R as <-. now split.
    + injection E as _ E. now destruct before.
  - subst calls. apply no_rejection_stops, L.
Qed.

Lemma mutation_run_stops mutate project zone out calls :
  (forall operation, rejection (mutate (Resolved operation)) = None) ->
  (forall e, rejection (mutate (Rejected e)) = Some e) ->
  mutation_run mutate project zone out calls -> stops_at_rejection out calls.
Proof.
  intros Ok Ko [[e [-> ->]]|[operation [tail [-> P]]]].
  - intros before c after m E R.
    destruct before as [|b before]; cbn in E.
    + injection E as <- <-. rewrite Ko in R. injection R as <-. now split.
    + injection E as _ E. now destruct before.
  - apply (stops_at_rejection_app out [mutate (Resolved operation)] tail).
    + constructor; [|constructor]. unfold is_rejected. now rewrite Ok.
    + exact (poll_run_stops _ _ _ _ _ P).
Qed.

Lemma restart_run_stops project zone instance out calls :
  restart_run project zone instance out calls -> stops_at_rejection out calls.
Proof.
  intros [out1 [stop_calls [P1 P]]].
  apply mutation_run_stops in P1; [|reflexivity|reflexivity].
  destruct out1 as [[]|e|].
  - destruct P as [start_calls [-> P2]].
    apply mutation_run_stops in P2; [|reflexivity|reflexivity].
    apply stops_at_rejection_app; [now apply returned_lacks_rejection|exact P2].
  - destruct P as [-> ->]. exact P1.
  - destruct P as [-> ->]. exact P1.
Qed.

Section LifecycleProperties.

Variable C : Collaborators.

(** Each lifecycle handler is the common shape around its own work. *)
Lemma lifecycle_cases h :
  In h (lifecycle C) ->
  exists label work shape,
    (forall fuel req w, h fuel req w = lifecycle_handler C label (work fuel) req w) /\
    (forall fuel zone instance, appends (work fuel zone instance) (shape zone instance)) /\
    (forall zone instance out calls,
        shape zone instance out calls -> stops_at_rejection out calls).
Proof.
  intros I. cbn in I. destruct I as [<-|[<-|[<-|[<-|[]]]]].
  - exists "Start "%string, (startInstance C),
      (fun zone instance => mutation_run (CallStart (project C) zone instance) (project C) zone).
    split; [apply vmStartFunc_shape|]. split; [apply startInstance_shape|].
    intros zone instance out calls. now apply mutation_run_stops.
  - exists "Stop "%string, (stopInstance C),
      (fun zone instance => mutation_run (CallStop (project C) zone instance) (project C) zone).
    split; [apply vmStopFunc_shape|]. split; [apply stopInstance_shape|].
    intros zone instance out calls. now apply mutation_run_stops.
  - exists "Restart "%string, (restart C), (restart_run (project C)).
    split; [apply vmRestartFunc_shape|]. split; [apply restart_shape|].
    intros zone instance out calls. apply restart_run_stops.
  - exists "Get "%string, (fun _ => nothing),
      (fun _ _ out calls => out = Returned tt /\ calls = []).
    split; [intros; apply vmStatusFunc_shape|]. split; [intros; apply nothing_shape|].
    intros zone instance out calls [_ ->]. apply no_rejection_stops. constructor.
Qed.

(** A rejected call ends a lifecycle handler: nothing is called after it
    and the response is the error with the message of the rejection. *)
Lemma lifecycle_rejection h fuel req w before c after m :
  In h (lifecycle C) ->
  history (snd (h fuel req w)) = history w ++ before ++ c :: after ->
  rejection c = Some m ->
  after = [] /\
  fst (h fuel req w) = Returned tt /\
  res (snd (h fuel req w)) = failed (res w) m.
Proof.
  intros I E R.
  destruct (lifecycle_cases h I) as [label [work [shape [Hh [Ha Hs]]]]].
  rewrite Hh in *.
  pose proof (lifecycle_handler_calls C label (work fuel) shape req w (Ha fuel)) as H.
  cbv zeta in H.
  destruct (checked req) as [e|[zone instance]].
  - destruct H as [_ [H _]]. rewrite H in E. exfalso.
    rewrite <- (app_nil_r (history w)) in E at 1. apply app_inv_head in E.
    now destruct before.
  - destruct H as [out [calls [S H]]]. apply Hs in S.
    destruct out as [[]|e|].
    + destruct H as [r [F [Hh' Hr]]]. rewrite Hh' in E. apply app_inv_head in E.
      destruct (split_at_first is_rejected calls _ [] before c after
                  (returned_lacks_rejection calls S) (rejected_is_rejected c m R) E)
        as [[-> [-> ->]]|[mid [_ X]]]; [|now destruct mid].
      split; [reflexivity|]. split; [exact F|]. rewrite Hr.
      destruct r as [inst|e]; cbn in R; [discriminate|]. now injection R as ->.
    + destruct H as [F [Hh' Hr]]. rewrite Hh' in E. apply app_inv_head in E.
      destruct (S before c after m E R) as [-> X]. injection X as ->.
      now repeat split.
    + destruct H as [F [Hh' Hr]]. rewrite Hh' in E. apply app_inv_head in E.
      destruct (S before c after m E R) as [_ X]. discriminate.
Qed.

(** A lifecycle handler that answers with status 200 sends the status text
    of the metadata it fetched last. *)
Lemma lifecycle_success h fuel req w body :
  In h (lifecycle C) ->
  res w = Response.fresh ->
  Response.statusCode (res (snd (h fuel req w))) = 200 ->
  Response.sent (res (snd (h fuel req w))) = Some body ->
  exists before zone instance inst,
    history (snd (h fuel req w)) =
      before ++ [CallGet (project C) zone instance (Resolved inst)] /\
    body = InstanceStatusText (resolve inst).
Proof.
  intros I Fr St Se.
  destruct (lifecycle_cases h I) as [label [work [shape [Hh [Ha Hs]]]]].
  rewrite Hh in *.
  pose proof (lifecycle_handler_calls C label (work fuel) shape req w (Ha fuel)) as H.
  cbv zeta in H.
  destruct (checked req) as [e|[zone instance]].
  - destruct H as [_ [_ H]]. rewrite H in St. discriminate.
  - destruct H as [out [calls [S H]]].
    destruct out as [[]|e|].
    + destruct H as [r [F [Hh' Hr]]]. rewrite Hr in St, Se.
      destruct r as [inst|e]; [|discriminate].
      exists (history w ++ calls), zone, instance, inst.
      split; [rewrite Hh', app_assoc; reflexivity|].
      cbn in Se. now injection Se as <-.
    + destruct H as [_ [_ H]]. rewrite H in St. discriminate.
    + destruct H as [_ [_ H]]. rewrite H, Fr in Se. discriminate.
Qed.

End LifecycleProperties.

(** ** Restart *)

Lemma polls_are_waits operation project zone rs :
  Forall (fun c => is_wait c = true) (polls operation project zone rs).
Proof. induction rs as [|r rs IH]; constructor; [reflexivity|exact IH]. Qed.

Lemma poll_run_waits operation project zone out calls :
  poll_run operation project zone out calls -> Forall (fun c => is_wait c = true) calls.
Proof.
  intros [rs [_ P]]. destruct out as [[]|e|].
  - destruct P as [last [_ ->]]. apply polls_are_waits.
  - subst calls. apply Forall_app. split; [apply polls_are_waits|].
    constructor; [reflexivity|constructor].
  - subst calls. apply polls_are_waits.
Qed.

Lemma waits_lack kind calls :
  (forall c, is_wait c = true -> kind c = false) ->
  Forall (fun c => is_wait c = true) calls -> lacks kind calls.
Proof.
  intros K F. unfold lacks. eapply Forall_impl; [|exact F]. exact K.
Qed.

Lemma wait_is_no_start c : is_wait c = true -> is_start c = false.
Proof. now destruct c. Qed.

Lemma stop_run_lacks_start project zone instance out calls :
  mutation_run (CallStop project zone instance) project zone out calls ->
  lacks is_start calls.
Proof.
  intros [[e [-> ->]]|[operation [tail [-> P]]]].
  - constructor; [reflexivity|constructor].
  - constructor; [reflexivity|].
    apply waits_lack; [exact wait_is_no_start|]. exact (poll_run_waits _ _ _ _ _ P).
Qed.

(** The calls of a restart in which a start occurs. *)
Lemma restart_run_start project zone instance out calls extra before s after :
  restart_run project zone instance out calls ->
  Forall (fun c => is_get c = true) extra ->
  calls ++ extra = before ++ s :: after ->
  is_start s = true ->
  exists stopped rs last r,
    before = CallStop project zone instance (Resolved stopped)
             :: polls (IOperation.name (LROperation.latestResponse stopped)) project zone
                  (rs ++ [last]) /\
    Forall pending rs /\ terminal last /\
    s = CallStart project zone instance r /\
    Forall (fun c => is_wait c = true \/ is_get c = true) after.
Proof.
  intros [out1 [stop_calls [P1 P]]] G E S.
  assert (Lx : lacks is_start extra).
  { eapply Forall_impl; [|exact G]. intros c. now destruct c. }
  pose proof (stop_run_lacks_start _ _ _ _ _ P1) as L1.
  assert (N : forall o, out1 = o -> (forall u, o <> Returned u) ->
              out = out1 /\ calls = stop_calls -> False).
  { intros o _ _ [_ ->].
    exact (lacks_no_split is_start _ before s after (lacks_app _ _ _ L1 Lx) S E). }
  destruct out1 as [[]|e|];
    [|exfalso; now apply (N _ eq_refl)|exfalso; now apply (N _ eq_refl)].
  clear N. destruct P as [start_calls [-> P2]].
  destruct P1 as [[e [X _]]|[stopped [tail1 [-> Q1]]]]; [discriminate|].
  destruct Q1 as [rs [Prs [last [T ->]]]].
  assert (exists r rest, start_calls = CallStart project zone instance r :: rest /\
            Forall (fun c => is_wait c = true) rest) as [r [rest [-> W]]].
  { destruct P2 as [[e [_ ->]]|[started [tail2 [-> Q2]]]].
    - eexists _, []. split; [reflexivity|constructor].
    - eexists _, tail2. split; [reflexivity|]. exact (poll_run_waits _ _ _ _ _ Q2). }
  rewrite <- app_assoc in E. cbn [app] in E.
  destruct (split_at_first is_start _ _ _ before s after L1 S E)
    as [[-> [-> ->]]|[mid [_ X]]].
  - exists stopped, rs, last, r. repeat split; try assumption.
    apply Forall_app. split.
    + eapply Forall_impl; [|exact W]. intros c. now left.
    + eapply Forall_impl; [|exact G]. intros c. now right.
  - exfalso.
    refine (lacks_no_split is_start (rest ++ extra) mid s after _ S X).
    apply lacks_app; [|exact Lx]. apply waits_lack; [exact wait_is_no_start|exact W].
Qed.

Lemma restart_run_begins project zone instance out calls :
  restart_run project zone instance out calls ->
  exists r rest, calls = CallStop project zone instance r :: rest.
Proof.
  intros [out1 [stop_calls [P1 P]]].
  assert (S : exists r rest, stop_calls = CallStop project zone instance r :: rest).
  { destruct P1 as [[e [_ ->]]|[operation [tail [-> _]]]]; eexists _, _; reflexivity. }
  destruct S as [r [rest ->]].
  destruct out1 as [[]|e|].
  - destruct P as [start_calls [-> _]]. eexists _, _. reflexivity.
  - destruct P as [_ ->]. eexists _, _. reflexivity.
  - destruct P as [_ ->]. eexists _, _. reflexivity.
Qed.

(** C2.  A restart with its two parameters begins with the stop mutation.
    In its calls, whatever the collaborators answer and however long the
    run is followed, a start mutation is preceded by exactly this: the
    stop mutation, accepted, and the polls of the operation it named, the
    last of them terminal and none before it.  After the start come only
    polls and the final fetch of the metadata: no stop, no second
    start. *)
Theorem restart_stops_before_it_starts
    (C : Collaborators) (fuel : nat) (req : Request.t) (w : World) :
  (forall zone instance,
      checked req = inr (zone, instance) ->
      exists r rest,
        history (snd (vmRestartFunc C fuel req w))
          = history w ++ CallStop (project C) zone instance r :: rest) /\
  (forall before after p z i r,
      history (snd (vmRestartFunc C fuel req w))
        = history w ++ before ++ CallStart p z i r :: after ->
      exists stopped rs last,
        before = CallStop p z i (Resolved stopped)
                 :: polls (IOperation.name (LROperation.latestResponse stopped)) p z
                      (rs ++ [last]) /\
        Forall pending rs /\ terminal last /\
        Forall (fun c => is_wait c = true \/ is_get c = true) after).
Proof.
  rewrite vmRestartFunc_shape.
  pose proof (lifecycle_handler_calls C "Restart " (restart C fuel)
                (restart_run (project C)) req w (restart_shape C fuel)) as H.
  cbv zeta in H. split.
  - intros zone instance Hc. rewrite Hc in H. destruct H as [out [calls [S H]]].
    destruct (restart_run_begins _ _ _ _ _ S) as [r [rest ->]].
    destruct out as [[]|e|].
    + destruct H as [g [_ [Hh _]]]. rewrite Hh. eexists _, _. reflexivity.
    + destruct H as [_ [Hh _]]. rewrite Hh. eexists _, _. reflexivity.
    + destruct H as [_ [Hh _]]. rewrite Hh. eexists _, _. reflexivity.
  - intros before after p z i r E.
    destruct (checked req) as [e|[zone instance]].
    + destruct H as [_ [H _]]. rewrite H in E. exfalso.
      rewrite <- (app_nil_r (history w)) in E at 1. apply app_inv_head in E.
      now destruct before.
    + destruct H as [out [calls [S H]]].
      assert (X : exists extra, Forall (fun c => is_get c = true) extra /\
                    calls ++ extra = before ++ CallStart p z i r :: after).
      { destruct out as [[]|e|].
        - destruct H as [g [_ [Hh _]]]. rewrite Hh in E. apply app_inv_head in E.
          eexists. split; [|exact E]. constructor; [reflexivity|constructor].
        - destruct H as [_ [Hh _]]. rewrite Hh in E. apply app_inv_head in E.
          exists []. split; [constructor|]. now rewrite app_nil_r.
        - destruct H as [_ [Hh _]]. rewrite Hh in E. apply app_inv_head in E.
          exists []. split; [constructor|]. now rewrite app_nil_r. }
      destruct X as [extra [G X]].
      destruct (restart_run_start _ _ _ _ _ _ _ _ _ S G X eq_refl)
        as [stopped [rs [last [r' [B [Prs [T [Es A]]]]]]]].
      injection Es as -> -> -> _.
      exists stopped, rs, last. now repeat split.
Qed.

(** A restart whose stop needs four polls and whose start needs one. *)
Lemma restart_stops_before_it_starts_witness :
  exists stopped rs last,
    CallStop "proj" "zone-a" "vm-1" (Fake.accepted "op-stop")
      :: polls "op-stop" "proj" "zone-a" Fake.three_then_DONE
    = CallStop "proj" "zone-a" "vm-1" (Resolved stopped)
        :: polls (IOperation.name (LROperation.latestResponse stopped)) "proj" "zone-a"
             (rs ++ [last]) /\
    Forall pending rs /\ terminal last /\
    Forall (fun c => is_wait c = true \/ is_get c = true)
      [ CallWait "op-start" "proj" "zone-a" (Resolved (Fake.op "op" "DONE"));
        CallGet "proj" "zone-a" "vm-1" (Resolved Fake.running_vm) ].
Proof.
  apply (proj2 (restart_stops_before_it_starts (Fake.collaborators Fake.smooth) 8
                  Fake.req initial)
           (CallStop "proj" "zone-a" "vm-1" (Fake.accepted "op-stop")
              :: polls "op-stop" "proj" "zone-a" Fake.three_then_DONE)
           [ CallWait "op-start" "proj" "zone-a" (Resolved (Fake.op "op" "DONE"));
             CallGet "proj" "zone-a" "vm-1" (Resolved Fake.running_vm) ]
           "proj" "zone-a" "vm-1" (Fake.accepted "op-start")).
  reflexivity.
Defined.

(** C8.  In a run of a lifecycle handler, a call that the collaborator
    rejects with message [m], whether a mutation, a poll or the fetch of
    the metadata, is the last call of the run, and the handler answers
    with status 500 and the body ["Error: "] followed by [m] itself.  For a
    restart whose stop phase throws, the calls of the restart are those of
    the stop phase and no start is among them. *)
Theorem lifecycle_failure_aborts
    (C : Collaborators) (h : nat -> Request.t -> Task unit)
    (fuel : nat) (req : Request.t) (w : World) :
  In h (lifecycle C) ->
  (forall before c after m,
      history (snd (h fuel req w)) = history w ++ before ++ c :: after ->
      rejection c = Some m ->
      after = [] /\
      fst (h fuel req w) = Returned tt /\
      Response.statusCode (res (snd (h fuel req w))) = 500 /\
      Response.sent (res (snd (h fuel req w))) = Some ("Error: " ++ m)%string) /\
  (forall zone instance,
      checked req = inr (zone, instance) ->
      exists w1, history w1 = history w /\ res w1 = res w /\
        forall e,
          fst (stopInstance C fuel zone instance w1) = Threw e ->
          history (snd (vmRestartFunc C fuel req w))
            = history (snd (stopInstance C fuel zone instance w1)) /\
          (exists calls, history (snd (vmRestartFunc C fuel req w)) = history w ++ calls /\
                         lacks is_start calls) /\
          Response.statusCode (res (snd (vmRestartFunc C fuel req w))) = 500 /\
          Response.sent (res (snd (vmRestartFunc C fuel req w)))
            = Some ("Error: " ++ e)%string).
Proof.
  intros I. split.
  - intros before c after m E R.
    destruct (lifecycle_rejection C h fuel req w before c after m I E R) as [A [F Hr]].
    rewrite Hr. now repeat split.
  - intros zone instance Hc.
    assert (Q : forall z i w0, res (snd (restart C fuel z i w0)) = res w0).
    { intros z i w0. apply (restart_shape C fuel z i w0). }
    pose proof (lifecycle_handler_run C "Restart " (restart C fuel) req w Q) as H.
    cbv zeta in H. rewrite Hc in H. destruct H as [w1 [H1 [R1 H]]].
    exists w1. split; [exact H1|]. split; [exact R1|]. intros e T.
    destruct (stopInstance_shape C fuel zone instance w1) as [_ [calls [Hs P]]].
    assert (Er : restart C fuel zone instance w1
                 = (Threw e, snd (stopInstance C fuel zone instance w1))).
    { unfold restart, bind. destruct (stopInstance C fuel zone instance w1) as [out w2].
      cbn [fst snd] in T |- *. now subst out. }
    rewrite Er in H. rewrite T in P.
    destruct H as [_ [Hh Hr]]. rewrite <- vmRestartFunc_shape in Hh, Hr.
    rewrite Hh, Hr. split; [reflexivity|]. split; [|now split].
    exists calls. split; [rewrite Hs, H1; reflexivity|].
    exact (stop_run_lacks_start _ _ _ _ _ P).
Qed.

(** The control plane rejects the second poll of the stop of a restart. *)
Lemma lifecycle_failure_aborts_witness :
  let run := vmRestartFunc (Fake.collaborators Fake.failing) 8 Fake.req initial in
  @nil Call = [] /\
  fst run = Returned tt /\
  Response.statusCode (res (snd run)) = 500 /\
  Response.sent (res (snd run)) = Some "Error: quota exceeded"%string.
Proof.
  intros run.
  assert (I : In (vmRestartFunc (Fake.collaborators Fake.failing))
                 (lifecycle (Fake.collaborators Fake.failing))).
  { cbn. right. right. left. reflexivity. }
  destruct (lifecycle_failure_aborts (Fake.collaborators Fake.failing) _ 8 Fake.req initial I)
    as [A _].
  exact (A [ CallStop "proj" "zone-a" "vm-1" (Fake.accepted "op-stop");
             CallWait "op-stop" "proj" "zone-a" (Resolved (Fake.op "op" "RUNNING")) ]
           (CallWait "op-stop" "proj" "zone-a" (Rejected "quota exceeded"))
           [] "quota exceeded"%string eq_refl eq_refl).
Defined.

(** ** Status text and resolved state *)

(** C3.  The text of [vmStatusString] is the status text of the resolved
    state of the metadata it fetched: the present fields, address first,
    joined by line feeds, and one line feed at the end; a field that is
    missing or empty contributes nothing.  Every lifecycle handler that
    answers with status 200 sends exactly this text, for the metadata of
    its last call.  An address 1.2.3.4 with a status RUNNING gives the two
    lines in that order. *)
Theorem status_text_of_resolved_state
    (C : Collaborators) (h : nat -> Request.t -> Task unit)
    (fuel : nat) (req : Request.t) (w : World) (body : string) :
  In h (lifecycle C) ->
  res w = Response.fresh ->
  Response.statusCode (res (snd (h fuel req w))) = 200 ->
  Response.sent (res (snd (h fuel req w))) = Some body ->
  (exists before zone instance inst,
      history (snd (h fuel req w)) =
        before ++ [CallGet (project C) zone instance (Resolved inst)] /\
      body = InstanceStatusText (resolve inst) /\
      body = (Js.join Js.LF (filter Js.ToBoolean [address (resolve inst); status (resolve inst)])
              ++ Js.LF)%string) /\
  (forall zone instance w0 inst,
      instancesClient_get C (history w0) (project C) zone instance = Resolved inst ->
      fst (vmStatusString C zone instance w0) = Returned (InstanceStatusText (resolve inst))) /\
  InstanceStatusText {| address := Some "1.2.3.4"%string; status := Some "RUNNING"%string |}
    = ("1.2.3.4" ++ Js.LF ++ "RUNNING" ++ Js.LF)%string.
Proof.
  intros I Fr St Se. split; [|split].
  - destruct (lifecycle_success C h fuel req w body I Fr St Se)
      as [before [zone [instance [inst [Hh Hb]]]]].
    exists before, zone, instance, inst. split; [exact Hh|]. split; [exact Hb|].
    rewrite Hb. symmetry. apply status_text_resolved.
  - intros zone instance w0 inst G. rewrite vmStatusString_run, G. reflexivity.
  - reflexivity.
Qed.

(** A start whose operation is terminal at the third poll, on a running
    instance with an address. *)
Lemma status_text_of_resolved_state_witness :
  let C := Fake.collaborators Fake.two_then_DONE in
  let body := ("1.2.3.4" ++ Js.LF ++ "RUNNING" ++ Js.LF)%string in
  exists before zone instance inst,
    history (snd (vmStartFunc C 8 Fake.req initial)) =
      before ++ [CallGet (project C) zone instance (Resolved inst)] /\
    body = InstanceStatusText (resolve inst) /\
    body = (Js.join Js.LF (filter Js.ToBoolean [address (resolve inst); status (resolve inst)])
            ++ Js.LF)%string.
Proof.
  intros C body.
  assert (I : In (vmStartFunc C) (lifecycle C)) by (cbn; left; reflexivity).
  exact (proj1 (status_text_of_resolved_state C (vmStartFunc C) 8 Fake.req initial body
                  I eq_refl eq_refl eq_refl)).
Defined.

(** C7.  [getVmInstance] makes one call, the fetch of the metadata, and
    when that resolves it returns the pair of the address and the status:
    the address is the external address of the first access configuration
    of the first network interface and the status is the status field,
    each absent when it is missing from the metadata (a field that holds
    the empty string counts as missing).  The two are independent:
    metadata with a status and no interface gives no address and that
    status, metadata with neither gives neither. *)
Theorem resolver_reads_metadata_once
    (C : Collaborators) (zone instance : string) (w : World) :
  let r := instancesClient_get C (history w) (project C) zone instance in
  let run := getVmInstance C zone instance w in
  history (snd run) = history w ++ [CallGet (project C) zone instance r] /\
  forall inst, r = Resolved inst ->
    fst run = Returned [present (first_natIP inst); present (IInstance.status inst)] /\
    (forall ni nis ac acs ip,
        IInstance.networkInterfaces inst = Some (ni :: nis) ->
        INetworkInterface.accessConfigs ni = Some (ac :: acs) ->
        IAccessConfig.natIP ac = Some ip -> ip <> ""%string ->
        fst run = Returned [Some ip; present (IInstance.status inst)]) /\
    (forall st,
        IInstance.networkInterfaces inst = None ->
        IInstance.status inst = Some st -> st <> ""%string ->
        fst run = Returned [None; Some st]) /\
    (IInstance.networkInterfaces inst = None ->
     IInstance.status inst = None ->
     fst run = Returned [None; None]).
Proof.
  intros r run. subst r run. rewrite getVmInstance_run. cbn [fst snd history].
  split; [reflexivity|]. intros inst ->. cbn [resolve address status].
  split; [reflexivity|]. split; [|split].
  - intros ni nis ac acs ip N A Ip Ne. unfold first_natIP. rewrite N, A, Ip.
    destruct ip; [contradiction|reflexivity].
  - intros st N S Ne. unfold first_natIP. rewrite N, S.
    destruct st; [contradiction|reflexivity].
  - intros N S. unfold first_natIP. now rewrite N, S.
Qed.

(** A stopped instance: a status, no network interface. *)
Lemma resolver_reads_metadata_once_witness :
  let C := Fake.collaborators
             (Fake.script [] [Fake.powered_off (Some "TERMINATED"%string)] []) in
  fst (getVmInstance C "zone-a" "vm-1" initial) = Returned [None; Some "TERMINATED"%string].
Proof.
  intros C.
  destruct (resolver_reads_metadata_once C "zone-a" "vm-1" initial) as [_ H].
  destruct (H (Fake.powered_off (Some "TERMINATED"%string)) eq_refl) as [_ [_ [S _]]].
  apply (S "TERMINATED"%string eq_refl eq_refl). discriminate.
Defined.

Lemma contains_middle (a b c : string) : contains (a ++ b ++ c)%string b.
Proof. now exists a, c. Qed.

Lemma not_found_names zone instance :
  contains (not_found zone instance) zone /\ contains (not_found zone instance) instance.
Proof.
  unfold not_found. split.
  - apply contains_middle.
  - exists ("Instance " ++ zone ++ "/")%string,
           " IP address not found - unable to connect MCS"%string.
    now rewrite <- !append_assoc.
Qed.

Lemma status_only_text st :
  address st = None ->
  InstanceStatusText st =
    match status st with
    | Some s => if (s =? "")%string then Js.LF else (s ++ Js.LF)%string
    | None => Js.LF
    end.
Proof.
  destruct st as [a [[|c s]|]]; cbn; intros ->; reflexivity.
Qed.

(** C6.  When the metadata of an instance resolves to a state without an
    address, [getVmIP] throws an error whose message contains the zone
    and the instance, while the status handler, for the same instance,
    answers with status 200 and a body that is the status line alone. *)
Theorem no_address_fails_getVmIP_not_status
    (C : Collaborators) (req : Request.t) (zone instance : string) (w : World)
    (inst : IInstance.t) :
  checked req = inr (zone, instance) ->
  res w = Response.fresh ->
  instancesClient_get C (history w) (project C) zone instance = Resolved inst ->
  address (resolve inst) = None ->
  (exists m, fst (getVmIP C zone instance w) = Threw m /\
             contains m zone /\ contains m instance) /\
  fst (vmStatusFunc C req w) = Returned tt /\
  Response.statusCode (res (snd (vmStatusFunc C req w))) = 200 /\
  (forall st, IInstance.status inst = Some st -> st <> ""%string ->
     Response.sent (res (snd (vmStatusFunc C req w))) = Some (st ++ Js.LF)%string) /\
  Response.sent (res (snd (vmStatusFunc C req w)))
    = Some (match status (resolve inst) with
            | Some st => (st ++ Js.LF)%string
            | None => Js.LF
            end).
Proof.
  intros Hc Fr G A. split.
  - exists (not_found zone instance). rewrite getVmIP_run, G, A.
    split; [reflexivity|]. apply not_found_names.
  - rewrite vmStatusFunc_shape.
    pose proof (lifecycle_handler_run C "Get " nothing req w (fun _ _ _ => eq_refl)) as H.
    cbv zeta in H. rewrite Hc in H. destruct H as [w1 [H1 [_ H]]].
    change (nothing zone instance w1) with (Returned tt, w1) in H. cbv beta iota in H.
    rewrite H1, G in H. destruct H as [F [_ Hr]].
    split; [exact F|]. rewrite Hr, Fr. split; [reflexivity|].
    assert (T : InstanceStatusText (resolve inst) =
                match status (resolve inst) with
                | Some st => (st ++ Js.LF)%string
                | None => Js.LF
                end).
    { rewrite (status_only_text _ A). cbn [resolve status].
      destruct (IInstance.status inst) as [[|c s]|]; reflexivity. }
    cbn [succeeded Response.sent]. rewrite T. split; [|reflexivity].
    intros st S Ne. cbn [resolve status]. rewrite S.
    destruct st; [contradiction|reflexivity].
Qed.

(** A terminated instance without network interfaces. *)
Lemma no_address_fails_getVmIP_not_status_witness :
  let C := Fake.collaborators
             (Fake.script [] [Fake.powered_off (Some "TERMINATED"%string)] []) in
  (exists m, fst (getVmIP C "zone-a" "vm-1" initial) = Threw m /\
             contains m "zone-a" /\ contains m "vm-1") /\
  fst (vmStatusFunc C Fake.req initial) = Returned tt /\
  Response.statusCode (res (snd (vmStatusFunc C Fake.req initial))) = 200 /\
  Response.sent (res (snd (vmStatusFunc C Fake.req initial)))
    = Some ("TERMINATED" ++ Js.LF)%string.
Proof.
  intros C.
  destruct (no_address_fails_getVmIP_not_status C Fake.req "zone-a" "vm-1" initial
              (Fake.powered_off (Some "TERMINATED"%string))
              eq_refl eq_refl eq_refl eq_refl) as [M [F [S [B _]]]].
  split; [exact M|]. split; [exact F|]. split; [exact S|].
  apply (B "TERMINATED"%string eq_refl). discriminate.
Defined.

Lemma without_accessConfigs_natIP inst : first_natIP (without_accessConfigs inst) = None.
Proof.
  unfold first_natIP, without_accessConfigs. cbn.
  destruct (IInstance.networkInterfaces inst) as [[|ni nis]|]; reflexivity.
Qed.

(** C9.  Metadata whose first external address is the empty string
    resolves to a state without an address: [getVmIP] throws the
    address-not-found error, as it does for the same metadata stripped of
    its access configurations, and the status text has no line for the
    address, not even an empty one.  In the same way a status that is the
    empty string leaves no line in the status text. *)
Theorem empty_fields_resolve_to_absent
    (C : Collaborators) (zone instance : string) (w : World) (inst : IInstance.t) :
  instancesClient_get C (history w) (project C) zone instance = Resolved inst ->
  (first_natIP inst = Some ""%string ->
     fst (getVmInstance C zone instance w) = Returned [None; present (IInstance.status inst)] /\
     fst (getVmIP C zone instance w) = Threw (not_found zone instance) /\
     fst (vmStatusString C zone instance w)
       = Returned (match present (IInstance.status inst) with
                   | Some st => (st ++ Js.LF)%string
                   | None => Js.LF
                   end) /\
     forall C' w',
       instancesClient_get C' (history w') (project C') zone instance
         = Resolved (without_accessConfigs inst) ->
       fst (getVmIP C' zone instance w') = fst (getVmIP C zone instance w) /\
       fst (vmStatusString C' zone instance w') = fst (vmStatusString C zone instance w)) /\
  (IInstance.status inst = Some ""%string ->
     fst (vmStatusString C zone instance w)
       = Returned (match present (first_natIP inst) with
                   | Some a => (a ++ Js.LF)%string
                   | None => Js.LF
                   end)).
Proof.
  intros G. split.
  - intros E.
    rewrite getVmInstance_run, getVmIP_run, vmStatusString_run, G. cbn [fst].
    cbn [resolve address status]. rewrite E. cbn [present].
    split; [reflexivity|]. split; [reflexivity|]. split.
    + unfold InstanceStatusText, resolve. cbn [address status]. rewrite E. cbn [present].
      rewrite present_idempotent. reflexivity.
    + intros C' w' G'. rewrite getVmIP_run, vmStatusString_run, G'. cbn [fst].
      unfold InstanceStatusText, resolve. rewrite without_accessConfigs_natIP, E.
      cbn [address status present IInstance.status without_accessConfigs].
      split; reflexivity.
  - intros E. rewrite vmStatusString_run, G. cbn [fst].
    unfold InstanceStatusText, resolve. cbn [address status]. rewrite E. cbn [present].
    rewrite present_idempotent.
    destruct (present (first_natIP inst)); reflexivity.
Qed.

(** A running instance whose access configuration holds an empty address. *)
Lemma empty_fields_resolve_to_absent_witness :
  let C := Fake.collaborators
             (Fake.script [] [Fake.vm (Some ""%string) (Some "RUNNING"%string)] []) in
  fst (getVmInstance C "zone-a" "vm-1" initial) = Returned [None; Some "RUNNING"%string] /\
  fst (getVmIP C "zone-a" "vm-1" initial) = Threw (not_found "zone-a" "vm-1") /\
  fst (vmStatusString C "zone-a" "vm-1" initial) = Returned ("RUNNING" ++ Js.LF)%string.
Proof.
  intros C.
  destruct (empty_fields_resolve_to_absent C "zone-a" "vm-1" initial
              (Fake.vm (Some ""%string) (Some "RUNNING"%string)) eq_refl) as [H _].
  destruct (H eq_refl) as [A [B [T _]]].
  exact (conj A (conj B T)).
Defined.

(** ** Decimal numerals *)

Ltac digit_value :=
  match goal with
  | |- context [Js.digitValue 10 ?c] =>
      let v := eval vm_compute in (Js.digitValue 10 c) in
      change (Js.digitValue 10 c) with v
  end;
  cbv beta iota.

Lemma digits_of_uint_acc : forall (d : uint) (acc : positive),
  Js.digits 10 (NilEmpty.string_of_uint d) (Some (Zpos acc))
  = Some (Zpos (Pos.of_uint_acc d acc)).
Proof.
  induction d; intros acc; cbn [NilEmpty.string_of_uint Js.digits Pos.of_uint_acc];
    try reflexivity;
    digit_value; rewrite <- IHd; f_equal; f_equal; lia.
Qed.

Lemma digits_of_uint_zero : forall d : uint,
  Js.digits 10 (NilEmpty.string_of_uint d) (Some 0%Z) = Some (Z.of_N (Pos.of_uint d)).
Proof.
  induction d; cbn [NilEmpty.string_of_uint Js.digits Pos.of_uint];
    try reflexivity;
    digit_value; first [ exact IHd | apply digits_of_uint_acc ].
Qed.

Lemma digits_of_uint : forall d : uint,
  d <> Nil ->
  Js.digits 10 (NilEmpty.string_of_uint d) None = Some (Z.of_N (Pos.of_uint d)).
Proof.
  intros d N. destruct d; [contradiction|..];
    cbn [NilEmpty.string_of_uint Js.digits Pos.of_uint];
    digit_value; first [ apply digits_of_uint_zero | apply digits_of_uint_acc ].
Qed.

Lemma parseInt_of_uint (d : uint) :
  d <> Nil ->
  Js.parseInt_string (NilEmpty.string_of_uint d) = Js.Int (Z.of_N (Pos.of_uint d)) /\
  Js.parseInt_string (String "-" (NilEmpty.string_of_uint d))
    = Js.Int (- Z.of_N (Pos.of_uint d)).
Proof.
  intros N.
  assert (P : Js.parseInt_string (NilEmpty.string_of_uint d)
              = match Js.digits 10 (NilEmpty.string_of_uint d) None with
                | Some m => Js.Int (1 * m)
                | None => Js.NaN
                end).
  { destruct d as [|d|d|d|d|d|d|d|d|d|d]; try reflexivity. destruct d; reflexivity. }
  assert (M : Js.parseInt_string (String "-" (NilEmpty.string_of_uint d))
              = match Js.digits 10 (NilEmpty.string_of_uint d) None with
                | Some m => Js.Int (-1 * m)
                | None => Js.NaN
                end).
  { destruct d as [|d|d|d|d|d|d|d|d|d|d]; try reflexivity. destruct d; reflexivity. }
  rewrite P, M, (digits_of_uint d N). split; f_equal; lia.
Qed.

(** [parseInt] reads back the decimal numeral of an integer. *)
Lemma parseInt_Number_toString (z : Z) :
  Js.parseInt_string (Js.Number_toString (Js.Int z)) = Js.Int z.
Proof.
  destruct z as [|p|p]; [reflexivity| |];
    unfold Js.Number_toString, Z.to_int, NilZero.string_of_int, NilZero.string_of_uint;
    pose proof (DecimalPos.Unsigned.to_uint_nonnil p) as N;
    destruct (parseInt_of_uint (Pos.to_uint p) N) as [P M];
    rewrite (DecimalPos.Unsigned.of_to p) in P, M;
    destruct (Pos.to_uint p); try contradiction; first [exact P | exact M].
Qed.

(** ** The game-server handlers *)

Section Probe.

Variable C : Collaborators.

(** The steps the three probe handlers share, on an instance that has an
    address. *)
Lemma probe_prefix req zone instance inst ip (label : string -> string)
    (k : ServerStatus.t -> Task unit) w :
  checked req = inr (zone, instance) ->
  instancesClient_get C (history w) (project C) zone instance = Resolved inst ->
  address (resolve inst) = Some ip ->
  let h1 := history w ++ [CallGet (project C) zone instance (Resolved inst)] in
  exists cs,
    try_catch
      ('(zone, instance) <- reqZoneInstance req ;;
       ip <- getVmIP C zone instance ;;
       log Info (label (Js.ToString ip)) ;;
       mcsStatus <- lookup C ip ;;
       k mcsStatus)
      on_error w
    = let w2 := {| history := h1 ++ [CallLookup ip (mc_lookup C h1 ip)];
                   console := cs; res := res w |} in
      match mc_lookup C h1 ip with
      | Resolved mcsStatus => try_catch (k mcsStatus) on_error w2
      | Rejected e => on_error e w2
      end.
Proof.
  intros Hc G A h1. unfold try_catch at 1.
  rewrite (accepted_request req _ (zone, instance) w Hc). cbv beta iota.
  unfold bind at 1. rewrite getVmIP_run, G, A. unfold fetched. rewrite G.
  unfold bind at 1, log at 1. unfold bind at 1, lookup, call, await.
  cbn [history res console Js.ToString]. fold h1.
  destruct (mc_lookup C h1 ip) as [mcsStatus|e]; eexists; reflexivity.
Qed.

End Probe.

Lemma player_list_text players :
  (String.concat Js.LF
     (map (fun player => Player.name player ++ " " ++ Player.id player) players)
   ++ Js.LF)%string
  = PlayerListText players.
Proof.
  induction players as [|p [|q rest] IH]; [reflexivity| |].
  - cbn. now rewrite <- !append_assoc.
  - cbn [map String.concat PlayerListText] in IH |- *.
    rewrite <- IH, <- !append_assoc. reflexivity.
Qed.

(** The count handler answers a probe without [online] with status 200
    and the text NaN. *)
Lemma playerCount_without_online_sends_NaN :
  fst (mcsPlayersFunc (Fake.collaborators (Fake.serving None None)) Fake.req initial)
    = Returned tt /\
  Response.statusCode
    (res (snd (mcsPlayersFunc (Fake.collaborators (Fake.serving None None)) Fake.req initial)))
    = 200 /\
  Response.sent
    (res (snd (mcsPlayersFunc (Fake.collaborators (Fake.serving None None)) Fake.req initial)))
    = Some ("NaN" ++ Js.LF)%string.
Proof. repeat split. Qed.

(** C4, as the code has it.  On an instance with an address whose probe
    resolves, the count handler always answers with status 200: the body
    is the text of [parseInt] of the [online] field and a line feed.
    When the field is missing that text is NaN; when it is an integer
    from 0 up to 2^53, given as a number or as its decimal numeral, the
    text is that numeral. *)
Theorem playerCount_sends_parsed_online
    (C : Collaborators) (req : Request.t) (zone instance : string) (w : World)
    (inst : IInstance.t) (ip : string) (mcsStatus : ServerStatus.t) :
  checked req = inr (zone, instance) ->
  res w = Response.fresh ->
  instancesClient_get C (history w) (project C) zone instance = Resolved inst ->
  address (resolve inst) = Some ip ->
  mc_lookup C (history w ++ [CallGet (project C) zone instance (Resolved inst)]) ip
    = Resolved mcsStatus ->
  let run := mcsPlayersFunc C req w in
  let online := chain (players_of mcsStatus) Players.online in
  fst run = Returned tt /\
  Response.statusCode (res (snd run)) = 200 /\
  (online = None -> Response.sent (res (snd run)) = Some ("NaN" ++ Js.LF)%string) /\
  (forall z, (0 <= z < 2 ^ 53)%Z ->
     online = Some (Js.PNum z) \/ online = Some (Js.PStr (Js.Number_toString (Js.Int z))) ->
     Response.sent (res (snd run)) = Some (Js.Number_toString (Js.Int z) ++ Js.LF)%string).
Proof.
  intros Hc Fr G A L run online. subst run. unfold mcsPlayersFunc.
  destruct (probe_prefix C req zone instance inst ip
              (fun ip => ("Get MCS " ++ ip ++ " number of players")%string)
              (fun mcsStatus =>
                 res_send (Js.Number_toString
                             (Js.parseInt (chain (players_of mcsStatus) Players.online))
                           ++ Js.LF)%string)
              w Hc G A) as [cs E].
  cbv zeta in E. rewrite L in E.
  change (chain (chain (ServerStatus.status ?m) StatusPayload.players) Players.online)
    with (chain (players_of m) Players.online).
  rewrite E. fold online. cbn [try_catch res_send fst snd res Response.statusCode Response.sent].
  rewrite Fr. split; [reflexivity|]. split; [reflexivity|]. split.
  - intros ->. reflexivity.
  - intros z _ [->| ->]; unfold Js.parseInt, Js.Prim_toString;
      now rewrite parseInt_Number_toString.
Qed.

(** The probe reports five players, as the string "5". *)
Lemma playerCount_sends_parsed_online_witness :
  let C := Fake.collaborators (Fake.serving (Some (Js.PStr "5")) None) in
  Response.statusCode (res (snd (mcsPlayersFunc C Fake.req initial))) = 200 /\
  Response.sent (res (snd (mcsPlayersFunc C Fake.req initial))) = Some ("5" ++ Js.LF)%string.
Proof.
  intros C.
  destruct (playerCount_sends_parsed_online C Fake.req "zone-a" "vm-1" initial
              Fake.running_vm "1.2.3.4" (Fake.probe (Some (Js.PStr "5")) None)
              eq_refl eq_refl eq_refl eq_refl eq_refl) as [_ [S [_ P]]].
  split; [exact S|]. apply (P 5%Z); [lia|]. right. reflexivity.
Defined.

(** C5.  On an instance with an address whose probe resolves, the list
    handler answers a probe that has a sample array with status 200 and
    one line per player, the name, a space and the id, each line ended by
    a line feed; it answers a probe without the array with status 500 and
    an error. *)
Theorem playerList_lines_or_error
    (C : Collaborators) (req : Request.t) (zone instance : string) (w : World)
    (inst : IInstance.t) (ip : string) (mcsStatus : ServerStatus.t) :
  checked req = inr (zone, instance) ->
  res w = Response.fresh ->
  instancesClient_get C (history w) (project C) zone instance = Resolved inst ->
  address (resolve inst) = Some ip ->
  mc_lookup C (history w ++ [CallGet (project C) zone instance (Resolved inst)]) ip
    = Resolved mcsStatus ->
  let run := mcsPlayerListFunc C req w in
  let sample := chain (players_of mcsStatus) Players.sample in
  fst run = Returned tt /\
  (forall players, sample = Some players ->
     Response.statusCode (res (snd run)) = 200 /\
     Response.sent (res (snd run)) = Some (PlayerListText players) /\
     PlayerListText players =
       (String.concat Js.LF
          (map (fun p => Player.name p ++ " " ++ Player.id p) players) ++ Js.LF)%string) /\
  (sample = None ->
     Response.statusCode (res (snd run)) = 500 /\
     exists message, Response.sent (res (snd run)) = Some ("Error: " ++ message)%string).
Proof.
  intros Hc Fr G A L run sample. subst run. unfold mcsPlayerListFunc.
  destruct (probe_prefix C req zone instance inst ip
              (fun ip => ("Get MCS " ++ ip ++ " player list")%string)
              (fun mcsStatus =>
                 match chain (players_of mcsStatus) Players.sample with
                 | None => throw "Cannot read properties of undefined (reading 'map')"
                 | Some players =>
                     res_send
                       (String.concat Js.LF
                          (map (fun player => Player.name player ++ " " ++ Player.id player)
                               players) ++ Js.LF)%string
                 end)
              w Hc G A) as [cs E].
  cbv zeta in E. rewrite L in E.
  change (chain (chain (ServerStatus.status ?m) StatusPayload.players) Players.sample)
    with (chain (players_of m) Players.sample).
  rewrite E. fold sample. unfold try_catch.
  destruct sample as [players|].
  - cbn. rewrite Fr. split; [reflexivity|]. split; [|discriminate].
    intros ? [= <-]. split; [reflexivity|]. rewrite player_list_text. now split.
  - cbn. split; [reflexivity|]. split; [discriminate|]. intros _.
    split; [reflexivity|]. eexists. reflexivity.
Qed.

(** Alice and Bob are on the server. *)
Lemma playerList_lines_or_error_witness :
  let C := Fake.collaborators (Fake.serving None (Some Fake.alice_and_bob)) in
  Response.statusCode (res (snd (mcsPlayerListFunc C Fake.req initial))) = 200 /\
  Response.sent (res (snd (mcsPlayerListFunc C Fake.req initial)))
    = Some ("Alice u1" ++ Js.LF ++ "Bob u2" ++ Js.LF)%string.
Proof.
  intros C.
  destruct (playerList_lines_or_error C Fake.req "zone-a" "vm-1" initial
              Fake.running_vm "1.2.3.4" (Fake.probe None (Some Fake.alice_and_bob))
              eq_refl eq_refl eq_refl eq_refl eq_refl) as [_ [P _]].
  destruct (P Fake.alice_and_bob eq_refl) as [S [B _]].
  exact (conj S B).
Defined.

(** ** Sample runs *)

Example parseInt_five : Js.parseInt (Some (Js.PStr "5")) = Js.Int 5.
Proof. reflexivity. Qed.

Example parseInt_prefix : Js.parseInt (Some (Js.PStr "  -0x1fz")) = Js.Int (-31).
Proof. reflexivity. Qed.

Example parseInt_undefined : Js.parseInt None = Js.NaN.
Proof. reflexivity. Qed.

Example parseInt_number : Js.parseInt (Some (Js.PNum 12)) = Js.Int 12.
Proof. reflexivity. Qed.

Example start_then_status :
  Response.sent (res (snd (vmStartFunc (Fake.collaborators Fake.two_then_DONE) 8
                             Fake.req initial)))
  = Some ("1.2.3.4" ++ Js.LF ++ "RUNNING" ++ Js.LF)%string.
Proof. reflexivity. Qed.

Example start_out_of_fuel :
  fst (vmStartFunc (Fake.collaborators Fake.two_then_DONE) 2 Fake.req initial) = Running.
Proof. reflexivity. Qed.

Example restart_calls :
  map is_wait (history (snd (vmRestartFunc (Fake.collaborators Fake.smooth) 8
                               Fake.req initial)))
  = [false; true; true; true; true; false; true; false].
Proof. reflexivity. Qed.

Example list_without_sample :
  Response.statusCode
    (res (snd (mcsPlayerListFunc (Fake.collaborators (Fake.serving None None))
                 Fake.req initial)))
  = 500.
Proof. reflexivity. Qed.

(** * Further properties *)

(** ** The poller, turn by turn *)

Section PollerTurns.

Variable C : Collaborators.
Variables project zone operation : string.

(** One turn of the loop, with what it writes to the console. *)
Lemma wait_loop_turn_log fuel w :
  wait_loop C (S fuel) project zone operation w =
    match zoneOperationsClient_wait C (history w) operation project zone with
    | Rejected e =>
        (Threw e,
         {| history := history w ++ [CallWait operation project zone (Rejected e)];
            console := console w ++ [(Debug, ("Waiting " ++ operation ++ " ...")%string)];
            res := res w |})
    | Resolved iOp =>
        let w1 := {| history := history w ++ [CallWait operation project zone (Resolved iOp)];
                     console := console w ++ turn_log operation iOp;
                     res := res w |} in
        if is_DONE (IOperation.status iOp) then (Returned tt, w1)
        else wait_loop C fuel project zone operation w1
    end.
Proof.
  cbn [wait_loop]. run_task.
  destruct (zoneOperationsClient_wait C (history w) operation project zone) as [iOp|e];
    [|reflexivity].
  unfold turn_log.
  destruct (IOperation.statusMessage iOp) as [[|c m]|];
    destruct (IOperation.warnings iOp) as [[|x ws]|];
    destruct (is_DONE (IOperation.status iOp)); cbn;
    rewrite <- ?app_assoc; reflexivity.
Qed.

Lemma polls_as_waits rs :
  polls operation project zone rs = waits operation project zone (map (@Resolved _) rs).
Proof. unfold polls, waits. now rewrite map_map. Qed.

Lemma scripted_prefix h rs tail :
  scripted C h operation project zone (map (@Resolved _) rs ++ tail) ->
  forall i r, nth_error rs i = Some r ->
    zoneOperationsClient_wait C (h ++ polls operation project zone (firstn i rs))
      operation project zone = Resolved r.
Proof.
  intros Sc i r N.
  assert (L : i < length rs) by (apply nth_error_Some; congruence).
  rewrite polls_as_waits, <- firstn_map.
  replace (firstn i (map (@Resolved _) rs))
    with (firstn i (map (@Resolved IOperation.t) rs ++ tail)).
  - apply Sc. rewrite nth_error_app1 by (rewrite length_map; exact L).
    now rewrite nth_error_map, N.
  - rewrite firstn_app, length_map.
    replace (i - length rs) with 0 by lia. cbn. apply app_nil_r.
Qed.

Lemma scripted_next h rs a tail :
  scripted C h operation project zone (map (@Resolved _) rs ++ a :: tail) ->
  zoneOperationsClient_wait C (h ++ polls operation project zone rs) operation project zone = a.
Proof.
  intros Sc. rewrite polls_as_waits.
  replace (map (@Resolved _) rs)
    with (firstn (length rs) (map (@Resolved IOperation.t) rs ++ a :: tail)).
  - apply Sc. rewrite nth_error_app2 by (rewrite length_map; lia).
    rewrite length_map, Nat.sub_diag. reflexivity.
  - rewrite firstn_app, length_map, Nat.sub_diag. cbn. rewrite app_nil_r.
    rewrite <- (length_map (@Resolved IOperation.t) rs). apply firstn_all.
Qed.

(** The loop runs through answers that are not terminal, one turn each. *)
Lemma wait_loop_pending : forall rs fuel w,
  Forall pending rs ->
  (forall i r, nth_error rs i = Some r ->
     zoneOperationsClient_wait C (history w ++ polls operation project zone (firstn i rs))
       operation project zone = Resolved r) ->
  wait_loop C (length rs + fuel) project zone operation w =
  wait_loop C fuel project zone operation
    {| history := history w ++ polls operation project zone rs;
       console := console w ++ flat_map (turn_log operation) rs;
       res := res w |}.
Proof.
  induction rs as [|r rs IH]; intros fuel w P A.
  - cbn. rewrite !app_nil_r. now destruct w.
  - inversion P as [|? ? Pr Prs]; subst.
    cbn [length Nat.add]. rewrite wait_loop_turn_log.
    pose proof (A 0 r eq_refl) as A0. cbn in A0. rewrite app_nil_r in A0. rewrite A0.
    cbv zeta. unfold pending in Pr. rewrite Pr.
    rewrite IH; [|exact Prs|].
    + cbn [history console res polls map flat_map]. now rewrite <- !app_assoc.
    + intros i r' N. cbn [history]. rewrite <- app_assoc. exact (A (S i) r' N).
Qed.

End PollerTurns.

(** X1.  The poller throws what the control plane rejects a wait call with:
    after answers that are not terminal, a rejection ends the loop at
    once, with its message; the rejected call is the last one and the
    closing line of the console is not written. *)
Theorem poller_throws_the_rejection
    (C : Collaborators) (project zone operation : string)
    (rs : list IOperation.t) (e : string) (fuel : nat) (w : World) :
  Forall pending rs ->
  scripted C (history w) operation project zone (map (@Resolved _) rs ++ [Rejected e]) ->
  length rs < fuel ->
  waitForComputeIOperation C fuel project zone operation w =
    (Threw e,
     {| history := history w ++ polls operation project zone rs
                   ++ [CallWait operation project zone (Rejected e)];
        console := console w ++ flat_map (turn_log operation) rs
                   ++ [(Debug, ("Waiting " ++ operation ++ " ...")%string)];
        res := res w |}).
Proof.
  intros P Sc L.
  replace fuel with (length rs + S (fuel - S (length rs))) by lia.
  unfold waitForComputeIOperation, bind.
  rewrite (wait_loop_pending C project zone operation rs _ w P
             (scripted_prefix C project zone operation _ rs _ Sc)).
  rewrite wait_loop_turn_log. cbn [history console res].
  rewrite (scripted_next C project zone operation _ rs _ _ Sc).
  now rewrite <- !app_assoc.
Qed.

Lemma poller_throws_the_rejection_witness :
  waitForComputeIOperation (Fake.collaborators Fake.failing) 5 "proj" "zone-a" "op-stop" initial
  = (Threw "quota exceeded",
     {| history := [] ++ polls "op-stop" "proj" "zone-a" [Fake.op "op" "RUNNING"]
                   ++ [CallWait "op-stop" "proj" "zone-a" (Rejected "quota exceeded")];
        console := [] ++ flat_map (turn_log "op-stop") [Fake.op "op" "RUNNING"]
                   ++ [(Debug, "Waiting op-stop ..."%string)];
        res := Response.fresh |}).
Proof.
  apply (poller_throws_the_rejection (Fake.collaborators Fake.failing)
           "proj" "zone-a" "op-stop" [Fake.op "op" "RUNNING"] "quota exceeded" 5 initial).
  - repeat constructor.
  - intros i a N. do 2 (destruct i as [|i]; [injection N as <-; reflexivity|]).
    destruct i; discriminate.
  - cbn. lia.
Defined.

(** X2.  The poller has no limit of its own: as long as the answers are not
    terminal it makes one more wait call per turn, so that after [n]
    such answers it has made exactly [n] calls and is still running. *)
Theorem poller_keeps_polling
    (C : Collaborators) (project zone operation : string)
    (rs : list IOperation.t) (w : World) :
  Forall pending rs ->
  scripted C (history w) operation project zone (map (@Resolved _) rs) ->
  let run := waitForComputeIOperation C (length rs) project zone operation w in
  fst run = Running /\
  history (snd run) = history w ++ polls operation project zone rs /\
  length (filter is_wait (history (snd run)))
    = length (filter is_wait (history w)) + length rs /\
  res (snd run) = res w.
Proof.
  intros P Sc run.
  assert (E : run = (Running,
                     {| history := history w ++ polls operation project zone rs;
                        console := console w ++ flat_map (turn_log operation) rs;
                        res := res w |})).
  { subst run. unfold waitForComputeIOperation, bind.
    rewrite <- (Nat.add_0_r (length rs)).
    rewrite (wait_loop_pending C project zone operation rs 0 w P); [reflexivity|].
    rewrite <- (app_nil_r (map _ rs)) in Sc.
    exact (scripted_prefix C project zone operation _ rs _ Sc). }
  rewrite E. cbn [fst snd history res]. repeat split; try reflexivity.
  now rewrite filter_app, length_app, filter_is_wait_polls, length_polls.
Qed.

Lemma poller_keeps_polling_witness :
  let C := Fake.collaborators (Fake.script never_done [] []) in
  let run := waitForComputeIOperation C 3 "proj" "zone-a" "op" initial in
  fst run = Running /\
  history (snd run) = [] ++ polls "op" "proj" "zone-a" never_done /\
  length (filter is_wait (history (snd run))) = 0 + 3 /\
  res (snd run) = Response.fresh.
Proof.
  intros C.
  apply (poller_keeps_polling C "proj" "zone-a" "op" never_done initial).
  - repeat constructor.
  - intros i a N. do 3 (destruct i as [|i]; [injection N as <-; reflexivity|]).
    destruct i; discriminate.
Defined.

(** The run of the poller on answers that end with the terminal one. *)
Lemma waitForComputeIOperation_terminal
    (C : Collaborators) (project zone operation : string)
    (rs : list IOperation.t) (last : IOperation.t) (fuel : nat) (w : World) :
  Forall pending rs ->
  terminal last ->
  scripted C (history w) operation project zone (map (@Resolved _) (rs ++ [last])) ->
  length rs < fuel ->
  waitForComputeIOperation C fuel project zone operation w =
    (Returned tt,
     {| history := history w ++ polls operation project zone (rs ++ [last]);
        console := console w ++ flat_map (turn_log operation) (rs ++ [last])
                   ++ [(Debug, ("Done " ++ operation)%string)];
        res := res w |}).
Proof.
  intros P T Sc L. rewrite map_app in Sc. cbn [map] in Sc.
  replace fuel with (length rs + S (fuel - S (length rs))) by lia.
  unfold waitForComputeIOperation, bind.
  rewrite (wait_loop_pending C project zone operation rs _ w P
             (scripted_prefix C project zone operation _ rs _ Sc)).
  rewrite wait_loop_turn_log. cbn [history console res].
  rewrite (scripted_next C project zone operation _ rs _ _ Sc).
  cbv zeta. unfold terminal in T. rewrite T. unfold log. cbn [history console res].
  unfold polls. rewrite map_app, flat_map_app. cbn [map flat_map].
  now rewrite app_nil_r, <- !app_assoc.
Qed.


(** X3.  When the poller returns, the console holds its turns and nothing
    else: for each answer in order the waiting line, then the status
    message, if it is not empty, as an error, then the warnings, if there
    are any, joined by a comma as one warning; and one closing line. *)
Theorem poller_writes_its_turns
    (C : Collaborators) (project zone operation : string)
    (rs : list IOperation.t) (last : IOperation.t) (fuel : nat) (w : World) :
  Forall pending rs ->
  terminal last ->
  scripted C (history w) operation project zone (map (@Resolved _) (rs ++ [last])) ->
  length rs < fuel ->
  waitForComputeIOperation C fuel project zone operation w =
    (Returned tt,
     {| history := history w ++ polls operation project zone (rs ++ [last]);
        console := console w ++ flat_map (turn_log operation) (rs ++ [last])
                   ++ [(Debug, ("Done " ++ operation)%string)];
        res := res w |}).
Proof.
  intros P T Sc L. rewrite map_app in Sc. cbn [map] in Sc.
  replace fuel with (length rs + S (fuel - S (length rs))) by lia.
  unfold waitForComputeIOperation, bind.
  rewrite (wait_loop_pending C project zone operation rs _ w P
             (scripted_prefix C project zone operation _ rs _ Sc)).
  rewrite wait_loop_turn_log. cbn [history console res].
  rewrite (scripted_next C project zone operation _ rs _ _ Sc).
  cbv zeta. unfold terminal in T. rewrite T. unfold log. cbn [history console res].
  unfold polls. rewrite map_app, flat_map_app. cbn [map flat_map].
  now rewrite app_nil_r, <- !app_assoc.
Qed.

Lemma poller_writes_its_turns_witness :
  waitForComputeIOperation (Fake.collaborators Fake.two_then_DONE) 3 "proj" "zone-a" "op" initial
  = (Returned tt,
     {| history := [] ++ polls "op" "proj" "zone-a"
                           ([Fake.op "op" "RUNNING"; Fake.noisy "op" "RUNNING"]
                            ++ [Fake.op "op" "DONE"]);
        console := [] ++ flat_map (turn_log "op")
                           ([Fake.op "op" "RUNNING"; Fake.noisy "op" "RUNNING"]
                            ++ [Fake.op "op" "DONE"])
                   ++ [(Debug, "Done op"%string)];
        res := Response.fresh |}).
Proof.
  apply (poller_writes_its_turns (Fake.collaborators Fake.two_then_DONE)
           "proj" "zone-a" "op" [Fake.op "op" "RUNNING"; Fake.noisy "op" "RUNNING"]
           (Fake.op "op" "DONE") 3 initial).
  - repeat constructor.
  - reflexivity.
  - intros i a N. do 3 (destruct i as [|i]; [injection N as <-; reflexivity|]).
    destruct i; discriminate.
  - cbn. lia.
Defined.

(** X4.  Whatever the control plane answers and however long the poller is
    followed, it calls nothing but wait on its operation, and it ends in
    one of three ways: it returns right after a terminal answer, it
    throws the message of a rejected wait call right after that call, or
    it is still running; every answer before the last call was resolved
    and not terminal. *)
Theorem poller_ends_on_DONE_or_rejection
    (C : Collaborators) (project zone operation : string) (fuel : nat) (w : World) :
  let run := waitForComputeIOperation C fuel project zone operation w in
  res (snd run) = res w /\
  exists rs, Forall pending rs /\
    match fst run with
    | Returned _ =>
        exists last, terminal last /\
          history (snd run) = history w ++ polls operation project zone (rs ++ [last])
    | Threw e =>
        history (snd run) = history w ++ polls operation project zone rs
                            ++ [CallWait operation project zone (Rejected e)]
    | Running => history (snd run) = history w ++ polls operation project zone rs
    end.
Proof.
  intros run.
  destruct (waitForComputeIOperation_shape C project zone operation fuel w
              (fst run) (snd run)) as [R [calls [H [rs [P S]]]]].
  { subst run. now destruct (waitForComputeIOperation C fuel project zone operation w). }
  split; [exact R|]. exists rs. split; [exact P|].
  destruct (fst run) as [[]|e|].
  - destruct S as [last [T ->]]. exists last. now split.
  - now subst calls.
  - now subst calls.
Qed.

(** ** Lifecycle runs from end to end *)

Section EndToEnd.

Variable C : Collaborators.

(** A mutation that is accepted and whose operation becomes terminal. *)
Lemma mutation_returns (ask : list Call -> Settled LROperation.t)
    (mutate : Settled LROperation.t -> Call) fuel zone operation rs last w :
  ask (history w) = Resolved operation ->
  Forall pending rs ->
  terminal last ->
  scripted C (history w ++ [mutate (Resolved operation)])
    (IOperation.name (LROperation.latestResponse operation)) (project C) zone
    (map (@Resolved _) (rs ++ [last])) ->
  length rs < fuel ->
  exists w2,
    bind (call ask mutate)
      (fun operation =>
         waitForComputeIOperation C fuel (project C) zone
           (IOperation.name (LROperation.latestResponse operation))) w
    = (Returned tt, w2) /\
    history w2 = history w ++ mutate (Resolved operation)
                 :: polls (IOperation.name (LROperation.latestResponse operation))
                      (project C) zone (rs ++ [last]) /\
    res w2 = res w.
Proof.
  intros A P T Sc L. unfold bind, call, await. rewrite A.
  match goal with
  | |- context [waitForComputeIOperation C fuel ?p ?z ?o ?w1] =>
      rewrite (waitForComputeIOperation_terminal C p z o rs last fuel w1 P T Sc L)
  end.
  eexists. split; [reflexivity|]. cbn [history res]. split; [|reflexivity].
  now rewrite <- app_assoc.
Qed.

(** A mutation that is rejected. *)
Lemma mutation_throws (ask : list Call -> Settled LROperation.t)
    (mutate : Settled LROperation.t -> Call) fuel zone e w :
  ask (history w) = Rejected e ->
  exists w2,
    bind (call ask mutate)
      (fun operation =>
         waitForComputeIOperation C fuel (project C) zone
           (IOperation.name (LROperation.latestResponse operation))) w
    = (Threw e, w2) /\
    history w2 = history w ++ [mutate (Rejected e)] /\
    res w2 = res w.
Proof.
  intros A. unfold bind, call, await. rewrite A. eexists. now repeat split.
Qed.

Lemma work_is_quiet (work : string -> string -> Task unit)
    (shape : string -> string -> Outcome unit -> list Call -> Prop) :
  (forall zone instance, appends (work zone instance) (shape zone instance)) ->
  forall zone instance w0, res (snd (work zone instance w0)) = res w0.
Proof. intros A zone instance w0. apply (A zone instance w0). Qed.

(** A lifecycle handler whose work returns. *)
Lemma lifecycle_handler_returns label work req zone instance w calls :
  (forall z i w0, res (snd (work z i w0)) = res w0) ->
  checked req = inr (zone, instance) ->
  (forall w1, history w1 = history w -> res w1 = res w ->
     exists w2, work zone instance w1 = (Returned tt, w2) /\
                history w2 = history w ++ calls /\ res w2 = res w) ->
  let run := lifecycle_handler C label work req w in
  let g := instancesClient_get C (history w ++ calls) (project C) zone instance in
  fst run = Returned tt /\
  history (snd run) = history w ++ calls ++ [CallGet (project C) zone instance g] /\
  res (snd run) =
    match g with
    | Resolved inst => succeeded (res w) (InstanceStatusText (resolve inst))
    | Rejected e => failed (res w) e
    end.
Proof.
  intros Q Hc W run g.
  pose proof (lifecycle_handler_run C label work req w Q) as H. fold run in H.
  cbv zeta in H. rewrite Hc in H. destruct H as [w1 [H1 [R1 H]]].
  destruct (W w1 H1 R1) as [w2 [E [H2 R2]]]. rewrite E in H.
  rewrite H2 in H. fold g in H. destruct H as [F [Hh Hr]].
  split; [exact F|]. split; [|exact Hr]. now rewrite Hh, <- app_assoc.
Qed.

(** A lifecycle handler whose work throws. *)
Lemma lifecycle_handler_throws label work req zone instance w calls e :
  (forall z i w0, res (snd (work z i w0)) = res w0) ->
  checked req = inr (zone, instance) ->
  (forall w1, history w1 = history w -> res w1 = res w ->
     exists w2, work zone instance w1 = (Threw e, w2) /\
                history w2 = history w ++ calls /\ res w2 = res w) ->
  let run := lifecycle_handler C label work req w in
  fst run = Returned tt /\
  history (snd run) = history w ++ calls /\
  res (snd run) = failed (res w) e.
Proof.
  intros Q Hc W run.
  pose proof (lifecycle_handler_run C label work req w Q) as H. fold run in H.
  cbv zeta in H. rewrite Hc in H. destruct H as [w1 [H1 [R1 H]]].
  destruct (W w1 H1 R1) as [w2 [E [H2 R2]]]. rewrite E in H.
  destruct H as [F [Hh Hr]]. split; [exact F|]. split; [|exact Hr]. congruence.
Qed.

End EndToEnd.

(** X5.  A start that is accepted and whose operation becomes terminal after
    any number of other answers runs to the end: one start call, the
    polls up to the terminal answer, one fetch of the metadata, and a
    response with status 200 whose body is the status text of that
    metadata. *)
Theorem start_runs_to_the_status
    (C : Collaborators) (fuel : nat) (req : Request.t) (zone instance : string) (w : World)
    (operation : LROperation.t) (rs : list IOperation.t) (last : IOperation.t)
    (inst : IInstance.t) :
  let op := IOperation.name (LROperation.latestResponse operation) in
  let h1 := history w ++ [CallStart (project C) zone instance (Resolved operation)] in
  let h2 := h1 ++ polls op (project C) zone (rs ++ [last]) in
  checked req = inr (zone, instance) ->
  res w = Response.fresh ->
  instancesClient_start C (history w) (project C) zone instance = Resolved operation ->
  Forall pending rs -> terminal last ->
  scripted C h1 op (project C) zone (map (@Resolved _) (rs ++ [last])) ->
  length rs < fuel ->
  instancesClient_get C h2 (project C) zone instance = Resolved inst ->
  fst (vmStartFunc C fuel req w) = Returned tt /\
  history (snd (vmStartFunc C fuel req w))
    = h2 ++ [CallGet (project C) zone instance (Resolved inst)] /\
  res (snd (vmStartFunc C fuel req w))
    = {| Response.statusCode := 200; Response.contentType := None;
         Response.sent := Some (InstanceStatusText (resolve inst)) |}.
Proof.
  intros op h1 h2 Hc Fr A P T Sc L G. rewrite vmStartFunc_shape.
  pose proof (lifecycle_handler_returns C "Start " (startInstance C fuel) req zone instance w
                (CallStart (project C) zone instance (Resolved operation)
                   :: polls op (project C) zone (rs ++ [last]))
                (work_is_quiet _ _ (startInstance_shape C fuel)) Hc) as H.
  cbv zeta in H.
  replace (history w ++ CallStart (project C) zone instance (Resolved operation)
             :: polls op (project C) zone (rs ++ [last])) with h2 in H
    by (subst h2 h1; now rewrite <- app_assoc).
  rewrite G, Fr in H.
  destruct H as [F [Hh Hr]].
  - intros w1 H1 R1. unfold startInstance.
    destruct (mutation_returns C
                (fun h => instancesClient_start C h (project C) zone instance)
                (CallStart (project C) zone instance) fuel zone operation rs last w1)
      as [w2 [E [H2 R2]]]; try assumption.
    + now rewrite H1.
    + now rewrite H1.
    + exists w2. split; [exact E|]. rewrite H2, H1, R2, R1. split; [|reflexivity].
      subst h2 h1. now rewrite <- app_assoc.
  - split; [exact F|]. split; [|exact Hr].
    rewrite Hh. subst h2 h1. now rewrite <- !app_assoc.
Qed.

Lemma start_runs_to_the_status_witness :
  fst (vmStartFunc (Fake.collaborators Fake.two_then_DONE) 3 Fake.req initial) = Returned tt /\
  history (snd (vmStartFunc (Fake.collaborators Fake.two_then_DONE) 3 Fake.req initial))
    = (([] ++ [CallStart "proj" "zone-a" "vm-1" (Fake.accepted "op-start")])
       ++ polls "op-start" "proj" "zone-a"
            ([Fake.op "op" "RUNNING"; Fake.noisy "op" "RUNNING"] ++ [Fake.op "op" "DONE"]))
      ++ [CallGet "proj" "zone-a" "vm-1" (Resolved Fake.running_vm)] /\
  res (snd (vmStartFunc (Fake.collaborators Fake.two_then_DONE) 3 Fake.req initial))
    = {| Response.statusCode := 200; Response.contentType := None;
         Response.sent := Some (InstanceStatusText (resolve Fake.running_vm)) |}.
Proof.
  apply (start_runs_to_the_status (Fake.collaborators Fake.two_then_DONE) 3 Fake.req
           "zone-a" "vm-1" initial
           {| LROperation.latestResponse := Fake.op "op-start" "RUNNING" |}
           [Fake.op "op" "RUNNING"; Fake.noisy "op" "RUNNING"] (Fake.op "op" "DONE")
           Fake.running_vm); try reflexivity.
  - repeat constructor.
  - intros i a N. do 3 (destruct i as [|i]; [injection N as <-; reflexivity|]).
    destruct i; discriminate.
  - cbn. lia.
Defined.

(** X6.  A stop runs to the end in the same way as a start. *)
Theorem stop_runs_to_the_status
    (C : Collaborators) (fuel : nat) (req : Request.t) (zone instance : string) (w : World)
    (operation : LROperation.t) (rs : list IOperation.t) (last : IOperation.t)
    (inst : IInstance.t) :
  let op := IOperation.name (LROperation.latestResponse operation) in
  let h1 := history w ++ [CallStop (project C) zone instance (Resolved operation)] in
  let h2 := h1 ++ polls op (project C) zone (rs ++ [last]) in
  checked req = inr (zone, instance) ->
  res w = Response.fresh ->
  instancesClient_stop C (history w) (project C) zone instance = Resolved operation ->
  Forall pending rs -> terminal last ->
  scripted C h1 op (project C) zone (map (@Resolved _) (rs ++ [last])) ->
  length rs < fuel ->
  instancesClient_get C h2 (project C) zone instance = Resolved inst ->
  fst (vmStopFunc C fuel req w) = Returned tt /\
  history (snd (vmStopFunc C fuel req w))
    = h2 ++ [CallGet (project C) zone instance (Resolved inst)] /\
  res (snd (vmStopFunc C fuel req w))
    = {| Response.statusCode := 200; Response.contentType := None;
         Response.sent := Some (InstanceStatusText (resolve inst)) |}.
Proof.
  intros op h1 h2 Hc Fr A P T Sc L G. rewrite vmStopFunc_shape.
  pose proof (lifecycle_handler_returns C "Stop " (stopInstance C fuel) req zone instance w
                (CallStop (project C) zone instance (Resolved operation)
                   :: polls op (project C) zone (rs ++ [last]))
                (work_is_quiet _ _ (stopInstance_shape C fuel)) Hc) as H.
  cbv zeta in H.
  replace (history w ++ CallStop (project C) zone instance (Resolved operation)
             :: polls op (project C) zone (rs ++ [last])) with h2 in H
    by (subst h2 h1; now rewrite <- app_assoc).
  rewrite G, Fr in H.
  destruct H as [F [Hh Hr]].
  - intros w1 H1 R1. unfold stopInstance.
    destruct (mutation_returns C
                (fun h => instancesClient_stop C h (project C) zone instance)
                (CallStop (project C) zone instance) fuel zone operation rs last w1)
      as [w2 [E [H2 R2]]]; try assumption.
    + now rewrite H1.
    + now rewrite H1.
    + exists w2. split; [exact E|]. rewrite H2, H1, R2, R1. split; [|reflexivity].
      subst h2 h1. now rewrite <- app_assoc.
  - split; [exact F|]. split; [|exact Hr].
    rewrite Hh. subst h2 h1. now rewrite <- !app_assoc.
Qed.

Lemma stop_runs_to_the_status_witness :
  fst (vmStopFunc (Fake.collaborators Fake.two_then_DONE) 3 Fake.req initial) = Returned tt /\
  history (snd (vmStopFunc (Fake.collaborators Fake.two_then_DONE) 3 Fake.req initial))
    = (([] ++ [CallStop "proj" "zone-a" "vm-1" (Fake.accepted "op-stop")])
       ++ polls "op-stop" "proj" "zone-a"
            ([Fake.op "op" "RUNNING"; Fake.noisy "op" "RUNNING"] ++ [Fake.op "op" "DONE"]))
      ++ [CallGet "proj" "zone-a" "vm-1" (Resolved Fake.running_vm)] /\
  res (snd (vmStopFunc (Fake.collaborators Fake.two_then_DONE) 3 Fake.req initial))
    = {| Response.statusCode := 200; Response.contentType := None;
         Response.sent := Some (InstanceStatusText (resolve Fake.running_vm)) |}.
Proof.
  apply (stop_runs_to_the_status (Fake.collaborators Fake.two_then_DONE) 3 Fake.req
           "zone-a" "vm-1" initial
           {| LROperation.latestResponse := Fake.op "op-stop" "RUNNING" |}
           [Fake.op "op" "RUNNING"; Fake.noisy "op" "RUNNING"] (Fake.op "op" "DONE")
           Fake.running_vm); try reflexivity.
  - repeat constructor.
  - intros i a N. do 3 (destruct i as [|i]; [injection N as <-; reflexivity|]).
    destruct i; discriminate.
  - cbn. lia.
Defined.

(** X7.  A restart whose stop and start are both accepted and both become
    terminal runs to the end, one phase after the other: the stop and its
    polls, then the start and its polls, then one fetch of the metadata;
    with [m] answers before the terminal one of the stop and [n] before
    that of the start that is [m + n + 5] calls, and the response is the
    status text of the metadata fetched last. *)
Theorem restart_runs_both_phases
    (C : Collaborators) (fuel : nat) (req : Request.t) (zone instance : string) (w : World)
    (stopped started : LROperation.t)
    (rs1 : list IOperation.t) (last1 : IOperation.t)
    (rs2 : list IOperation.t) (last2 : IOperation.t)
    (inst : IInstance.t) :
  let op1 := IOperation.name (LROperation.latestResponse stopped) in
  let op2 := IOperation.name (LROperation.latestResponse started) in
  let h1 := history w ++ [CallStop (project C) zone instance (Resolved stopped)] in
  let h2 := h1 ++ polls op1 (project C) zone (rs1 ++ [last1]) in
  let h3 := h2 ++ [CallStart (project C) zone instance (Resolved started)] in
  let h4 := h3 ++ polls op2 (project C) zone (rs2 ++ [last2]) in
  checked req = inr (zone, instance) ->
  res w = Response.fresh ->
  instancesClient_stop C (history w) (project C) zone instance = Resolved stopped ->
  Forall pending rs1 -> terminal last1 ->
  scripted C h1 op1 (project C) zone (map (@Resolved _) (rs1 ++ [last1])) ->
  instancesClient_start C h2 (project C) zone instance = Resolved started ->
  Forall pending rs2 -> terminal last2 ->
  scripted C h3 op2 (project C) zone (map (@Resolved _) (rs2 ++ [last2])) ->
  length rs1 < fuel -> length rs2 < fuel ->
  instancesClient_get C h4 (project C) zone instance = Resolved inst ->
  fst (vmRestartFunc C fuel req w) = Returned tt /\
  history (snd (vmRestartFunc C fuel req w))
    = h4 ++ [CallGet (project C) zone instance (Resolved inst)] /\
  length (history (snd (vmRestartFunc C fuel req w)))
    = length (history w) + (length rs1 + length rs2 + 5) /\
  res (snd (vmRestartFunc C fuel req w))
    = {| Response.statusCode := 200; Response.contentType := None;
         Response.sent := Some (InstanceStatusText (resolve inst)) |}.
Proof.
  intros op1 op2 h1 h2 h3 h4 Hc Fr A1 P1 T1 Sc1 A2 P2 T2 Sc2 L1 L2 G.
  rewrite vmRestartFunc_shape.
  set (calls := CallStop (project C) zone instance (Resolved stopped)
                :: polls op1 (project C) zone (rs1 ++ [last1])
                ++ CallStart (project C) zone instance (Resolved started)
                :: polls op2 (project C) zone (rs2 ++ [last2])).
  assert (E4 : history w ++ calls = h4).
  { subst calls h4 h3 h2 h1. rewrite <- !app_assoc. reflexivity. }
  pose proof (lifecycle_handler_returns C "Restart " (restart C fuel) req zone instance w calls
                (work_is_quiet _ _ (restart_shape C fuel)) Hc) as H.
  cbv zeta in H. rewrite E4, G, Fr in H.
  destruct H as [F [Hh Hr]].
  - intros w1 H1 R1. unfold restart, bind at 1. unfold stopInstance.
    destruct (mutation_returns C
                (fun h => instancesClient_stop C h (project C) zone instance)
                (CallStop (project C) zone instance) fuel zone stopped rs1 last1 w1)
      as [w2 [X2 [H2 R2]]]; try assumption; try (now rewrite H1).
    rewrite X2. unfold startInstance.
    assert (E2 : history w2 = h2).
    { rewrite H2, H1. unfold h2, h1. now rewrite <- app_assoc. }
    destruct (mutation_returns C
                (fun h => instancesClient_start C h (project C) zone instance)
                (CallStart (project C) zone instance) fuel zone started rs2 last2 w2)
      as [w3 [X3 [H3 R3]]]; try assumption; try (now rewrite E2).
    exists w3. split; [exact X3|]. split; [|congruence].
    rewrite H3, E2. subst h4 h3. rewrite <- !app_assoc. reflexivity.
  - split; [exact F|]. rewrite Hh, app_assoc, E4. split; [reflexivity|]. split; [|exact Hr].
    subst h4 h3 h2 h1. rewrite !length_app, !length_polls, !length_app. cbn [length]. lia.
Qed.

Lemma restart_runs_both_phases_witness :
  fst (vmRestartFunc (Fake.collaborators Fake.smooth) 4 Fake.req initial) = Returned tt /\
  length (history (snd (vmRestartFunc (Fake.collaborators Fake.smooth) 4 Fake.req initial)))
    = length (@nil Call) + (3 + 0 + 5) /\
  res (snd (vmRestartFunc (Fake.collaborators Fake.smooth) 4 Fake.req initial))
    = {| Response.statusCode := 200; Response.contentType := None;
         Response.sent := Some (InstanceStatusText (resolve Fake.running_vm)) |}.
Proof.
  destruct (restart_runs_both_phases (Fake.collaborators Fake.smooth) 4 Fake.req
              "zone-a" "vm-1" initial
              {| LROperation.latestResponse := Fake.op "op-stop" "RUNNING" |}
              {| LROperation.latestResponse := Fake.op "op-start" "RUNNING" |}
              [Fake.noisy "op" "RUNNING"; Fake.op "op" "PENDING"; Fake.noisy "op" "RUNNING"]
              (Fake.op "op" "DONE") [] (Fake.op "op" "DONE") Fake.running_vm)
    as [F [_ [N R]]]; try reflexivity.
  - repeat constructor.
  - intros i a N. do 4 (destruct i as [|i]; [injection N as <-; reflexivity|]).
    destruct i; discriminate.
  - constructor.
  - intros i a N. destruct i as [|i]; [injection N as <-; reflexivity|].
    destruct i; discriminate.
  - cbn. lia.
  - cbn. lia.
  - exact (conj F (conj N R)).
Defined.

(** ** Mutations that fail, and the fetch after a mutation *)

(** X8.  A mutation that the control plane rejects is the only call of its
    handler: no poll and no fetch of the metadata follow, and the
    response is the error.  For a restart the mutation in question is the
    stop. *)
Theorem rejected_mutation_is_the_only_call
    (C : Collaborators) (fuel : nat) (req : Request.t) (zone instance : string)
    (w : World) (e : string) :
  checked req = inr (zone, instance) ->
  (instancesClient_start C (history w) (project C) zone instance = Rejected e ->
   fst (vmStartFunc C fuel req w) = Returned tt /\
   history (snd (vmStartFunc C fuel req w))
     = history w ++ [CallStart (project C) zone instance (Rejected e)] /\
   res (snd (vmStartFunc C fuel req w)) = failed (res w) e) /\
  (instancesClient_stop C (history w) (project C) zone instance = Rejected e ->
   (fst (vmStopFunc C fuel req w) = Returned tt /\
    history (snd (vmStopFunc C fuel req w))
      = history w ++ [CallStop (project C) zone instance (Rejected e)] /\
    res (snd (vmStopFunc C fuel req w)) = failed (res w) e) /\
   (fst (vmRestartFunc C fuel req w) = Returned tt /\
    history (snd (vmRestartFunc C fuel req w))
      = history w ++ [CallStop (project C) zone instance (Rejected e)] /\
    res (snd (vmRestartFunc C fuel req w)) = failed (res w) e)).
Proof.
  intros Hc. split; [|intros A; split].
  - intros A. rewrite vmStartFunc_shape.
    apply (lifecycle_handler_throws C "Start " (startInstance C fuel) req zone instance w
             [CallStart (project C) zone instance (Rejected e)] e
             (work_is_quiet _ _ (startInstance_shape C fuel)) Hc).
    intros w1 H1 R1. unfold startInstance.
    destruct (mutation_throws C
                (fun h => instancesClient_start C h (project C) zone instance)
                (CallStart (project C) zone instance) fuel zone e w1)
      as [w2 [E [H2 R2]]]; [now rewrite H1|].
    exists w2. split; [exact E|]. split; congruence.
  - rewrite vmStopFunc_shape.
    apply (lifecycle_handler_throws C "Stop " (stopInstance C fuel) req zone instance w
             [CallStop (project C) zone instance (Rejected e)] e
             (work_is_quiet _ _ (stopInstance_shape C fuel)) Hc).
    intros w1 H1 R1. unfold stopInstance.
    destruct (mutation_throws C
                (fun h => instancesClient_stop C h (project C) zone instance)
                (CallStop (project C) zone instance) fuel zone e w1)
      as [w2 [E [H2 R2]]]; [now rewrite H1|].
    exists w2. split; [exact E|]. split; congruence.
  - rewrite vmRestartFunc_shape.
    apply (lifecycle_handler_throws C "Restart " (restart C fuel) req zone instance w
             [CallStop (project C) zone instance (Rejected e)] e
             (work_is_quiet _ _ (restart_shape C fuel)) Hc).
    intros w1 H1 R1. unfold restart, bind at 1. unfold stopInstance.
    destruct (mutation_throws C
                (fun h => instancesClient_stop C h (project C) zone instance)
                (CallStop (project C) zone instance) fuel zone e w1)
      as [w2 [E [H2 R2]]]; [now rewrite H1|].
    rewrite E. exists w2. split; [reflexivity|]. split; congruence.
Qed.

Lemma rejected_mutation_is_the_only_call_witness :
  fst (vmRestartFunc (Fake.collaborators rejecting_script) 4 Fake.req initial) = Returned tt /\
  history (snd (vmRestartFunc (Fake.collaborators rejecting_script) 4 Fake.req initial))
    = [] ++ [CallStop "proj" "zone-a" "vm-1" (Rejected "permission denied")] /\
  res (snd (vmRestartFunc (Fake.collaborators rejecting_script) 4 Fake.req initial))
    = failed Response.fresh "permission denied".
Proof.
  destruct (rejected_mutation_is_the_only_call (Fake.collaborators rejecting_script) 4
              Fake.req "zone-a" "vm-1" initial "permission denied" eq_refl) as [_ H].
  exact (proj2 (H eq_refl)).
Defined.

Lemma mutation_run_no_get mutate project zone out calls :
  (forall r, is_get (mutate r) = false) ->
  mutation_run mutate project zone out calls -> lacks is_get calls.
Proof.
  intros M [[e [_ ->]]|[operation [tail [-> P]]]].
  - constructor; [apply M|constructor].
  - constructor; [apply M|].
    apply waits_lack; [|exact (poll_run_waits _ _ _ _ _ P)]. intros c. now destruct c.
Qed.

Lemma mutation_run_returned mutate project zone u calls :
  mutation_run mutate project zone (Returned u) calls ->
  exists earlier operation last,
    calls = earlier ++ [CallWait operation project zone (Resolved last)] /\ terminal last.
Proof.
  intros [[e [X _]]|[operation [tail [-> [rs [_ [last [T ->]]]]]]]]; [discriminate|].
  exists (mutate (Resolved operation)
            :: polls (IOperation.name (LROperation.latestResponse operation)) project zone rs),
         (IOperation.name (LROperation.latestResponse operation)), last.
  split; [|exact T]. unfold polls. rewrite map_app. reflexivity.
Qed.

Lemma mutating_cases C h :
  In h (mutating C) ->
  exists label work shape,
    (forall fuel req w, h fuel req w = lifecycle_handler C label (work fuel) req w) /\
    (forall fuel zone instance, appends (work fuel zone instance) (shape zone instance)) /\
    (forall zone instance out calls, shape zone instance out calls -> lacks is_get calls) /\
    (forall zone instance u calls,
        shape zone instance (Returned u) calls ->
        exists earlier operation last,
          calls = earlier ++ [CallWait operation (project C) zone (Resolved last)] /\
          terminal last).
Proof.
  intros I. cbn in I. destruct I as [<-|[<-|[<-|[]]]].
  - exists "Start "%string, (startInstance C),
      (fun zone instance => mutation_run (CallStart (project C) zone instance) (project C) zone).
    split; [apply vmStartFunc_shape|]. split; [apply startInstance_shape|]. split.
    + intros zone instance out calls. now apply mutation_run_no_get.
    + intros zone instance u calls. apply mutation_run_returned.
  - exists "Stop "%string, (stopInstance C),
      (fun zone instance => mutation_run (CallStop (project C) zone instance) (project C) zone).
    split; [apply vmStopFunc_shape|]. split; [apply stopInstance_shape|]. split.
    + intros zone instance out calls. now apply mutation_run_no_get.
    + intros zone instance u calls. apply mutation_run_returned.
  - exists "Restart "%string, (restart C), (restart_run (project C)).
    split; [apply vmRestartFunc_shape|]. split; [apply restart_shape|]. split.
    + intros zone instance out calls [out1 [stop_calls [P1 P]]].
      pose proof (mutation_run_no_get (CallStop (project C) zone instance) _ _ _ _
                    (fun _ => eq_refl) P1) as L1.
      destruct out1 as [[]|e|].
      * destruct P as [start_calls [-> P2]]. apply lacks_app; [exact L1|].
        exact (mutation_run_no_get (CallStart (project C) zone instance) _ _ _ _
                 (fun _ => eq_refl) P2).
      * now destruct P as [_ ->].
      * now destruct P as [_ ->].
    + intros zone instance u calls [out1 [stop_calls [P1 P]]].
      destruct out1 as [[]|e|]; [|destruct P; discriminate|destruct P; discriminate].
      destruct P as [start_calls [-> P2]].
      destruct (mutation_run_returned _ _ _ _ _ P2) as [earlier [operation [last [-> T]]]].
      exists (stop_calls ++ earlier), operation, last. split; [|exact T].
      now rewrite app_assoc.
Qed.

(** X9.  The state of the instance is read only once the operation is
    terminal: in a start, a stop or a restart, the fetch of the metadata
    is the last call, and the call just before it is a poll that was
    answered with the terminal status. *)
Theorem metadata_is_fetched_after_the_terminal_poll
    (C : Collaborators) (h : nat -> Request.t -> Task unit)
    (fuel : nat) (req : Request.t) (w : World)
    (before after : list Call) (p z i : string) (g : Settled IInstance.t) :
  In h (mutating C) ->
  history (snd (h fuel req w)) = history w ++ before ++ CallGet p z i g :: after ->
  after = [] /\
  exists earlier operation last,
    before = earlier ++ [CallWait operation p z (Resolved last)] /\ terminal last.
Proof.
  intros I E.
  destruct (mutating_cases C h I) as [label [work [shape [Hh [Ha [Hg Ht]]]]]].
  rewrite Hh in E.
  pose proof (lifecycle_handler_calls C label (work fuel) shape req w (Ha fuel)) as H.
  cbv zeta in H.
  destruct (checked req) as [e|[zone instance]].
  - destruct H as [_ [H _]]. rewrite H in E. exfalso.
    rewrite <- (app_nil_r (history w)) in E at 1. apply app_inv_head in E.
    now destruct before.
  - destruct H as [out [calls [S H]]]. pose proof (Hg _ _ _ _ S) as L.
    destruct out as [[]|e|].
    + destruct H as [r [_ [Hh' _]]]. rewrite Hh' in E. apply app_inv_head in E.
      destruct (split_at_first is_get calls _ [] before (CallGet p z i g) after L eq_refl E)
        as [[-> [X ->]]|[mid [_ X]]]; [|now destruct mid].
      split; [reflexivity|]. injection X as -> -> -> _.
      exact (Ht _ _ _ _ S).
    + destruct H as [_ [Hh' _]]. rewrite Hh' in E. apply app_inv_head in E.
      exfalso. exact (lacks_no_split is_get calls before (CallGet p z i g) after L eq_refl E).
    + destruct H as [_ [Hh' _]]. rewrite Hh' in E. apply app_inv_head in E.
      exfalso. exact (lacks_no_split is_get calls before (CallGet p z i g) after L eq_refl E).
Qed.

Lemma metadata_is_fetched_after_the_terminal_poll_witness :
  @nil Call = [] /\
  exists earlier operation last,
    CallStart "proj" "zone-a" "vm-1" (Fake.accepted "op-start")
      :: polls "op-start" "proj" "zone-a"
           [Fake.op "op" "RUNNING"; Fake.noisy "op" "RUNNING"; Fake.op "op" "DONE"]
    = earlier ++ [CallWait operation "proj" "zone-a" (Resolved last)] /\ terminal last.
Proof.
  apply (metadata_is_fetched_after_the_terminal_poll
           (Fake.collaborators Fake.two_then_DONE)
           (vmStartFunc (Fake.collaborators Fake.two_then_DONE)) 3 Fake.req initial
           (CallStart "proj" "zone-a" "vm-1" (Fake.accepted "op-start")
              :: polls "op-start" "proj" "zone-a"
                   [Fake.op "op" "RUNNING"; Fake.noisy "op" "RUNNING"; Fake.op "op" "DONE"])
           [] "proj" "zone-a" "vm-1" (Resolved Fake.running_vm)).
  - cbn. left. reflexivity.
  - reflexivity.
Defined.

(** ** The status route *)

(** X10.  The status handler only reads: for a request with its two parameters
    it makes one call, the fetch of the metadata, and always answers, with
    the status text when the fetch resolves and with the error when it is
    rejected. *)
Theorem status_only_reads
    (C : Collaborators) (req : Request.t) (zone instance : string) (w : World) :
  checked req = inr (zone, instance) ->
  let g := instancesClient_get C (history w) (project C) zone instance in
  fst (vmStatusFunc C req w) = Returned tt /\
  history (snd (vmStatusFunc C req w))
    = history w ++ [CallGet (project C) zone instance g] /\
  res (snd (vmStatusFunc C req w)) =
    match g with
    | Resolved inst => succeeded (res w) (InstanceStatusText (resolve inst))
    | Rejected e => failed (res w) e
    end.
Proof.
  intros Hc g. rewrite vmStatusFunc_shape.
  pose proof (lifecycle_handler_returns C "Get " nothing req zone instance w []
                (fun _ _ _ => eq_refl) Hc) as H.
  cbv zeta in H. rewrite app_nil_r in H. apply H.
  intros w1 H1 R1. exists w1. split; [reflexivity|]. split; [|exact R1].
  rewrite ?app_nil_r. exact H1.
Qed.

Lemma status_only_reads_witness :
  fst (vmStatusFunc (Fake.collaborators rejecting_script) Fake.req initial) = Returned tt /\
  history (snd (vmStatusFunc (Fake.collaborators rejecting_script) Fake.req initial))
    = [] ++ [CallGet "proj" "zone-a" "vm-1" (Rejected "metadata unavailable")] /\
  res (snd (vmStatusFunc (Fake.collaborators rejecting_script) Fake.req initial))
    = failed Response.fresh "metadata unavailable".
Proof.
  exact (status_only_reads (Fake.collaborators rejecting_script) Fake.req
           "zone-a" "vm-1" initial eq_refl).
Defined.

(** ** The probe routes *)

Section ProbeRuns.

Variable C : Collaborators.

Lemma mcsStatusFunc_shape req w :
  mcsStatusFunc C req w =
    probe_handler C (fun ip => ("Get MCS " ++ ip)%string)
      (fun mcsStatus =>
         res_contentType "application/json" ;;
         res_send (JSON_stringify C mcsStatus ++ Js.LF)%string) req w.
Proof. reflexivity. Qed.

Lemma mcsPlayersFunc_shape req w :
  mcsPlayersFunc C req w =
    probe_handler C (fun ip => ("Get MCS " ++ ip ++ " number of players")%string)
      (fun mcsStatus =>
         res_send (Js.Number_toString
                     (Js.parseInt (chain (players_of mcsStatus) Players.online))
                   ++ Js.LF)%string) req w.
Proof. reflexivity. Qed.

Lemma mcsPlayerListFunc_shape req w :
  mcsPlayerListFunc C req w =
    probe_handler C (fun ip => ("Get MCS " ++ ip ++ " player list")%string)
      (fun mcsStatus =>
         match chain (players_of mcsStatus) Players.sample with
         | None => throw "Cannot read properties of undefined (reading 'map')"
         | Some players =>
             res_send
               (String.concat Js.LF
                  (map (fun player => Player.name player ++ " " ++ Player.id player)
                       players) ++ Js.LF)%string
         end) req w.
Proof. reflexivity. Qed.

(** What a probe handler does, case by case. *)
Lemma probe_handler_run label view req w :
  let run := probe_handler C label view req w in
  match checked req with
  | inl e =>
      fst run = Returned tt /\ history (snd run) = history w /\
      res (snd run) = failed (res w) e
  | inr (zone, instance) =>
      let g := instancesClient_get C (history w) (project C) zone instance in
      let h1 := history w ++ [CallGet (project C) zone instance g] in
      match g with
      | Rejected e =>
          fst run = Returned tt /\ history (snd run) = h1 /\
          res (snd run) = failed (res w) e
      | Resolved inst =>
          match address (resolve inst) with
          | None =>
              fst run = Returned tt /\ history (snd run) = h1 /\
              res (snd run) = failed (res w) (not_found zone instance)
          | Some ip =>
              let l := mc_lookup C h1 ip in
              let h2 := h1 ++ [CallLookup ip l] in
              match l with
              | Rejected e =>
                  fst run = Returned tt /\ history (snd run) = h2 /\
                  res (snd run) = failed (res w) e
              | Resolved mcsStatus =>
                  exists w2, history w2 = h2 /\ res w2 = res w /\
                             run = try_catch (view mcsStatus) on_error w2
              end
          end
      end
  end.
Proof.
  intros run.
  destruct (checked req) as [e|[zone instance]] eqn:Hc.
  - subst run. unfold probe_handler. rewrite (handler_rejects req _ e w Hc). repeat split.
  - cbv zeta.
    destruct (instancesClient_get C (history w) (project C) zone instance) as [inst|e] eqn:G.
    + destruct (address (resolve inst)) as [ip|] eqn:A.
      * destruct (probe_prefix C req zone instance inst ip label view w Hc G A) as [cs E].
        cbv zeta in E. fold (probe_handler C label view req) in E. fold run in E.
        rewrite E.
        destruct (mc_lookup C _ ip) as [mcsStatus|e].
        -- eexists. split; [|split]; [| |reflexivity]; reflexivity.
        -- repeat split.
      * assert (E : run = on_error (not_found zone instance)
                            {| history := history w ++
                                 [CallGet (project C) zone instance (Resolved inst)];
                               console := console w; res := res w |}).
        { subst run. unfold probe_handler, try_catch.
          rewrite (accepted_request req _ (zone, instance) w Hc).
          cbv beta iota. unfold bind at 1. rewrite getVmIP_run, G, A. unfold fetched.
          now rewrite G. }
        rewrite E. repeat split.
    + assert (E : run = on_error e
                          {| history := history w ++
                               [CallGet (project C) zone instance (Rejected e)];
                             console := console w; res := res w |}).
      { subst run. unfold probe_handler, try_catch.
        rewrite (accepted_request req _ (zone, instance) w Hc).
        cbv beta iota. unfold bind at 1. rewrite getVmIP_run, G. unfold fetched.
        now rewrite G. }
      rewrite E. repeat split.
Qed.

Lemma probe_cases h :
  In h (probes C) ->
  exists label view,
    (forall req w, h req w = probe_handler C label view req w) /\ responds view.
Proof.
  intros I. cbn in I. destruct I as [<-|[<-|[<-|[]]]].
  - eexists _, _. split; [apply mcsStatusFunc_shape|].
    intros m w. cbn. repeat split; [eexists; reflexivity|now left].
  - eexists _, _. split; [apply mcsPlayersFunc_shape|].
    intros m w. cbn. repeat split; [eexists; reflexivity|now left].
  - eexists _, _. split; [apply mcsPlayerListFunc_shape|].
    intros m w. unfold try_catch.
    destruct (chain (players_of m) Players.sample); cbn;
      repeat split; try (eexists; reflexivity); [now left|now right].
Qed.

End ProbeRuns.

(** X11.  A probe handler does not contact the game server unless the instance
    has an address: when the fetch of the metadata is rejected, or
    resolves to a state without an address, that fetch is the only call
    and the response is the error, with the message of the rejection or
    with the address-not-found message. *)
Theorem probe_needs_an_address
    (C : Collaborators) (h : Request.t -> Task unit) (req : Request.t)
    (zone instance : string) (w : World) :
  In h (probes C) ->
  checked req = inr (zone, instance) ->
  let g := instancesClient_get C (history w) (project C) zone instance in
  (forall e, g = Rejected e ->
     fst (h req w) = Returned tt /\
     history (snd (h req w)) = history w ++ [CallGet (project C) zone instance g] /\
     res (snd (h req w)) = failed (res w) e) /\
  (forall inst, g = Resolved inst -> address (resolve inst) = None ->
     fst (h req w) = Returned tt /\
     history (snd (h req w)) = history w ++ [CallGet (project C) zone instance g] /\
     res (snd (h req w)) = failed (res w) (not_found zone instance)).
Proof.
  intros I Hc g.
  destruct (probe_cases C h I) as [label [view [Hh _]]]. rewrite Hh.
  pose proof (probe_handler_run C label view req w) as H. cbv zeta in H.
  rewrite Hc in H. fold g in H. split.
  - intros e E. rewrite E in H |- *. exact H.
  - intros inst E A. rewrite E in H |- *. rewrite A in H. exact H.
Qed.

Lemma probe_needs_an_address_witness :
  let C := Fake.collaborators
             (Fake.script [] [Fake.powered_off (Some "TERMINATED"%string)]
                [Fake.probe None None]) in
  fst (mcsPlayersFunc C Fake.req initial) = Returned tt /\
  history (snd (mcsPlayersFunc C Fake.req initial))
    = [] ++ [CallGet "proj" "zone-a" "vm-1"
               (Resolved (Fake.powered_off (Some "TERMINATED"%string)))] /\
  res (snd (mcsPlayersFunc C Fake.req initial))
    = failed Response.fresh (not_found "zone-a" "vm-1").
Proof.
  intros C.
  assert (I : In (mcsPlayersFunc C) (probes C)) by (cbn; right; left; reflexivity).
  destruct (probe_needs_an_address C (mcsPlayersFunc C) Fake.req "zone-a" "vm-1" initial
              I eq_refl) as [_ H].
  exact (H (Fake.powered_off (Some "TERMINATED"%string)) eq_refl eq_refl).
Defined.

(** X12.  On an instance with an address a probe handler makes two calls: the
    fetch of the metadata and one probe, whose host is the resolved
    address.  It always answers: a rejected probe gives the error with
    the message of the rejection, unchanged. *)
Theorem probe_is_made_once_at_the_address
    (C : Collaborators) (h : Request.t -> Task unit) (req : Request.t)
    (zone instance : string) (w : World) (inst : IInstance.t) (ip : string) :
  In h (probes C) ->
  checked req = inr (zone, instance) ->
  instancesClient_get C (history w) (project C) zone instance = Resolved inst ->
  address (resolve inst) = Some ip ->
  let h1 := history w ++ [CallGet (project C) zone instance (Resolved inst)] in
  fst (h req w) = Returned tt /\
  history (snd (h req w)) = h1 ++ [CallLookup ip (mc_lookup C h1 ip)] /\
  (exists body, Response.sent (res (snd (h req w))) = Some body) /\
  (forall e, mc_lookup C h1 ip = Rejected e -> res (snd (h req w)) = failed (res w) e).
Proof.
  intros I Hc G A h1.
  destruct (probe_cases C h I) as [label [view [Hh Hv]]]. rewrite Hh.
  pose proof (probe_handler_run C label view req w) as H. cbv zeta in H.
  rewrite Hc, G, A in H. fold h1 in H.
  destruct (mc_lookup C h1 ip) as [mcsStatus|e].
  - destruct H as [w2 [H2 [R2 ->]]].
    destruct (Hv mcsStatus w2) as [F [Hh2 [B _]]].
    split; [exact F|]. split; [congruence|]. split; [exact B|]. discriminate.
  - destruct H as [F [Hh2 Hr]]. split; [exact F|]. split; [exact Hh2|].
    split; [rewrite Hr; eexists; reflexivity|]. intros e' [= <-]. exact Hr.
Qed.

Lemma probe_is_made_once_at_the_address_witness :
  let C := Fake.collaborators unreachable_script in
  fst (mcsStatusFunc C Fake.req initial) = Returned tt /\
  history (snd (mcsStatusFunc C Fake.req initial))
    = ([] ++ [CallGet "proj" "zone-a" "vm-1" (Resolved Fake.running_vm)])
      ++ [CallLookup "1.2.3.4" (Rejected "connection refused")] /\
  res (snd (mcsStatusFunc C Fake.req initial)) = failed Response.fresh "connection refused".
Proof.
  intros C.
  assert (I : In (mcsStatusFunc C) (probes C)) by (cbn; left; reflexivity).
  destruct (probe_is_made_once_at_the_address C (mcsStatusFunc C) Fake.req "zone-a" "vm-1"
              initial Fake.running_vm "1.2.3.4" I eq_refl eq_refl eq_refl)
    as [F [H [_ R]]].
  exact (conj F (conj H (R "connection refused"%string eq_refl))).
Defined.

(** X13.  When the probe resolves, the status route of the game server sends
    the probe answer as JSON: the content type is set to
    application/json, the status code is left as it was, and the body is
    the serialised answer followed by a line feed. *)
Theorem mcs_status_sends_json
    (C : Collaborators) (req : Request.t) (zone instance : string) (w : World)
    (inst : IInstance.t) (ip : string) (mcsStatus : ServerStatus.t) :
  checked req = inr (zone, instance) ->
  instancesClient_get C (history w) (project C) zone instance = Resolved inst ->
  address (resolve inst) = Some ip ->
  mc_lookup C (history w ++ [CallGet (project C) zone instance (Resolved inst)]) ip
    = Resolved mcsStatus ->
  fst (mcsStatusFunc C req w) = Returned tt /\
  res (snd (mcsStatusFunc C req w))
    = {| Response.statusCode := Response.statusCode (res w);
         Response.contentType := Some "application/json"%string;
         Response.sent := Some (JSON_stringify C mcsStatus ++ Js.LF)%string |}.
Proof.
  intros Hc G A L. rewrite mcsStatusFunc_shape.
  match goal with
  | |- context [probe_handler C ?label ?view req w] =>
      pose proof (probe_handler_run C label view req w) as H
  end.
  cbv zeta in H. rewrite Hc, G, A, L in H. destruct H as [w2 [_ [R2 ->]]].
  cbn. rewrite R2. split; reflexivity.
Qed.

Lemma mcs_status_sends_json_witness :
  let C := Fake.collaborators (Fake.serving (Some (Js.PNum 2)) (Some Fake.alice_and_bob)) in
  fst (mcsStatusFunc C Fake.req initial) = Returned tt /\
  res (snd (mcsStatusFunc C Fake.req initial))
    = {| Response.statusCode := 200;
         Response.contentType := Some "application/json"%string;
         Response.sent := Some ("{}" ++ Js.LF)%string |}.
Proof.
  intros C.
  exact (mcs_status_sends_json C Fake.req "zone-a" "vm-1" initial Fake.running_vm "1.2.3.4"
           (Fake.probe (Some (Js.PNum 2)) (Some Fake.alice_and_bob))
           eq_refl eq_refl eq_refl eq_refl).
Defined.

(** ** All routes *)

Section Routes.

Variable C : Collaborators.

Lemma route_cases path h :
  In (path, h) (app C) ->
  (In h (mutating C) /\ In path ["/vm-start"; "/vm-stop"; "/vm-restart"]%string) \/
  h = (fun _ => vmStatusFunc C) \/
  (exists p, In p (probes C) /\ h = fun _ => p).
Proof.
  intros I. cbn in I.
  destruct I as [I|[I|[I|[I|[I|[I|[I|[]]]]]]]]; injection I as <- <-.
  - left. cbn. tauto.
  - left. cbn. tauto.
  - left. cbn. tauto.
  - right. now left.
  - right. right. eexists. split; [|reflexivity]. cbn. tauto.
  - right. right. eexists. split; [|reflexivity]. cbn. tauto.
  - right. right. eexists. split; [|reflexivity]. cbn. tauto.
Qed.

Lemma mutating_is_lifecycle h : In h (mutating C) -> In h (lifecycle C).
Proof. cbn. tauto. Qed.

Lemma lifecycle_answers h fuel req w :
  In h (lifecycle C) ->
  res w = Response.fresh ->
  match fst (h fuel req w) with
  | Threw _ => False
  | Running => res (snd (h fuel req w)) = Response.fresh
  | Returned _ =>
      (exists body, Response.sent (res (snd (h fuel req w))) = Some body) /\
      (Response.statusCode (res (snd (h fuel req w))) = 200 \/
       Response.statusCode (res (snd (h fuel req w))) = 500)
  end.
Proof.
  intros I Fr.
  destruct (lifecycle_cases C h I) as [label [work [shape [Hh [Ha _]]]]]. rewrite Hh.
  pose proof (lifecycle_handler_calls C label (work fuel) shape req w (Ha fuel)) as H.
  cbv zeta in H.
  destruct (checked req) as [e|[zone instance]].
  - destruct H as [-> [_ ->]]. split; [eexists; reflexivity|now right].
  - destruct H as [out [calls [_ H]]]. destruct out as [[]|e|].
    + destruct H as [r [-> [_ ->]]]. rewrite Fr.
      destruct r; (split; [eexists; reflexivity|]); [now left|now right].
    + destruct H as [-> [_ ->]]. split; [eexists; reflexivity|now right].
    + destruct H as [-> [_ ->]]. exact Fr.
Qed.

Lemma status_returns req w : fst (vmStatusFunc C req w) = Returned tt.
Proof.
  rewrite vmStatusFunc_shape.
  pose proof (lifecycle_handler_calls C "Get " nothing
                (fun _ _ out calls => out = Returned tt /\ calls = []) req w
                nothing_shape) as H.
  cbv zeta in H.
  destruct (checked req) as [e|[zone instance]]; [apply H|].
  destruct H as [out [calls [[-> _] [r [F _]]]]]. exact F.
Qed.

Lemma probe_answers p req w :
  In p (probes C) ->
  res w = Response.fresh ->
  fst (p req w) = Returned tt /\
  (exists body, Response.sent (res (snd (p req w))) = Some body) /\
  (Response.statusCode (res (snd (p req w))) = 200 \/
   Response.statusCode (res (snd (p req w))) = 500).
Proof.
  intros I Fr.
  destruct (probe_cases C p I) as [label [view [Hh Hv]]]. rewrite Hh.
  pose proof (probe_handler_run C label view req w) as H. cbv zeta in H.
  assert (X : forall e run,
            fst run = Returned tt /\ res (snd run : World) = failed (res w) e ->
            fst run = Returned tt /\
            (exists body, Response.sent (res (snd run)) = Some body) /\
            (Response.statusCode (res (snd run)) = 200 \/
             Response.statusCode (res (snd run)) = 500)).
  { intros e run [F R]. rewrite R. split; [exact F|].
    split; [eexists; reflexivity|now right]. }
  destruct (checked req) as [e|[zone instance]]; [apply (X e); tauto|].
  destruct (instancesClient_get C (history w) (project C) zone instance) as [inst|e];
    [|apply (X e); tauto].
  destruct (address (resolve inst)) as [ip|]; [|apply (X (not_found zone instance)); tauto].
  destruct (mc_lookup C _ ip) as [mcsStatus|e]; [|apply (X e); tauto].
  destruct H as [w2 [_ [R2 ->]]].
  destruct (Hv mcsStatus w2) as [F [_ [B S]]]. rewrite R2, Fr in S. tauto.
Qed.

End Routes.

(** X14.  No error escapes a route: whatever the collaborators do, a handler
    never ends by throwing.  When it returns it has sent a response, with
    status 200 or 500.  Only the three routes that poll can be still
    running, and then nothing has been written to the response; the
    status route and the three probe routes always return. *)
Theorem every_route_answers
    (C : Collaborators) (path : string) (h : nat -> Request.t -> Task unit)
    (fuel : nat) (req : Request.t) (w : World) :
  In (path, h) (app C) ->
  res w = Response.fresh ->
  match fst (h fuel req w) with
  | Threw _ => False
  | Running =>
      res (snd (h fuel req w)) = Response.fresh /\
      In path ["/vm-start"; "/vm-stop"; "/vm-restart"]%string
  | Returned _ =>
      (exists body, Response.sent (res (snd (h fuel req w))) = Some body) /\
      (Response.statusCode (res (snd (h fuel req w))) = 200 \/
       Response.statusCode (res (snd (h fuel req w))) = 500)
  end.
Proof.
  intros I Fr.
  destruct (route_cases C path h I) as [[M P]|[->|[p [Ip ->]]]].
  - pose proof (lifecycle_answers C h fuel req w (mutating_is_lifecycle C h M) Fr) as H.
    destruct (fst (h fuel req w)); tauto.
  - pose proof (lifecycle_answers C (fun _ => vmStatusFunc C) fuel req w) as H.
    cbv beta in H. rewrite status_returns in H |- *. apply H; [|exact Fr]. cbn. tauto.
  - destruct (probe_answers C p req w Ip Fr) as [F H]. rewrite F. exact H.
Qed.

Lemma every_route_answers_witness :
  res (snd (vmStopFunc (Fake.collaborators (Fake.script never_done [] [])) 3
              Fake.req initial)) = Response.fresh /\
  In "/vm-stop"%string ["/vm-start"; "/vm-stop"; "/vm-restart"]%string.
Proof.
  exact (every_route_answers (Fake.collaborators (Fake.script never_done [] []))
           "/vm-stop" (vmStopFunc (Fake.collaborators (Fake.script never_done [] [])))
           3 Fake.req initial (or_intror (or_introl eq_refl)) eq_refl).
Defined.

Section Scope.

Variable C : Collaborators.

Lemma param_nonempty field name req v :
  param field name req = inr (Some v) -> v <> ""%string.
Proof.
  unfold param, present.
  destruct (field (Request.query req)) as [[|c q]|];
    destruct (Request.body req) as [b|]; try discriminate;
    try (intros [= <-]; discriminate);
    destruct (field b) as [[|d x]|]; intros [= <-]; discriminate.
Qed.

Lemma checked_nonempty req zone instance :
  checked req = inr (zone, instance) -> zone <> ""%string /\ instance <> ""%string.
Proof.
  unfold checked.
  destruct (param Params.zone "zone" req) as [e|[z|]] eqn:Z; try discriminate.
  - destruct (param Params.instance "instance" req) as [e|[i|]] eqn:I; try discriminate.
    intros [= <- <-]. split; eapply param_nonempty; eassumption.
  - destruct (param Params.instance "instance" req) as [e|i]; discriminate.
Qed.

Lemma poll_run_concerns operation project zone instance out calls :
  poll_run operation project zone out calls ->
  Forall (concerns project zone instance) calls.
Proof.
  intros [rs [_ P]].
  assert (L : forall l, Forall (concerns project zone instance)
                          (polls operation project zone l)).
  { induction l; constructor; [now split|assumption]. }
  destruct out as [[]|e|].
  - destruct P as [last [_ ->]]. apply L.
  - subst calls. apply Forall_app. split; [apply L|]. constructor; [now split|constructor].
  - subst calls. apply L.
Qed.

Lemma mutation_run_concerns mutate project zone instance out calls :
  (forall r, concerns project zone instance (mutate r)) ->
  mutation_run mutate project zone out calls ->
  Forall (concerns project zone instance) calls.
Proof.
  intros M [[e [_ ->]]|[operation [tail [-> P]]]].
  - constructor; [apply M|constructor].
  - constructor; [apply M|]. exact (poll_run_concerns _ _ _ _ _ _ P).
Qed.

Lemma restart_run_concerns project zone instance out calls :
  restart_run project zone instance out calls ->
  Forall (concerns project zone instance) calls.
Proof.
  intros [out1 [stop_calls [P1 P]]].
  assert (L1 : Forall (concerns project zone instance) stop_calls).
  { apply (mutation_run_concerns (CallStop project zone instance) _ _ _ _ _
             (fun _ => conj eq_refl (conj eq_refl eq_refl)) P1). }
  destruct out1 as [[]|e|].
  - destruct P as [start_calls [-> P2]]. apply Forall_app. split; [exact L1|].
    apply (mutation_run_concerns (CallStart project zone instance) _ _ _ _ _
             (fun _ => conj eq_refl (conj eq_refl eq_refl)) P2).
  - now destruct P as [_ ->].
  - now destruct P as [_ ->].
Qed.

Lemma lifecycle_concerns h fuel req zone instance w :
  In h (lifecycle C) ->
  checked req = inr (zone, instance) ->
  exists calls,
    history (snd (h fuel req w)) = history w ++ calls /\
    Forall (concerns (project C) zone instance) calls.
Proof.
  intros I Hc.
  assert (X : exists label work shape,
            (forall fuel req w, h fuel req w = lifecycle_handler C label (work fuel) req w) /\
            (forall fuel z i, appends (work fuel z i) (shape z i)) /\
            (forall z i out calls, shape z i out calls ->
                                   Forall (concerns (project C) z i) calls)).
  { cbn in I. destruct I as [<-|[<-|[<-|[<-|[]]]]].
    - exists "Start "%string, (startInstance C),
        (fun z i => mutation_run (CallStart (project C) z i) (project C) z).
      split; [apply vmStartFunc_shape|]. split; [apply startInstance_shape|].
      intros z i out calls. now apply mutation_run_concerns.
    - exists "Stop "%string, (stopInstance C),
        (fun z i => mutation_run (CallStop (project C) z i) (project C) z).
      split; [apply vmStopFunc_shape|]. split; [apply stopInstance_shape|].
      intros z i out calls. now apply mutation_run_concerns.
    - exists "Restart "%string, (restart C), (restart_run (project C)).
      split; [apply vmRestartFunc_shape|]. split; [apply restart_shape|].
      intros z i out calls. apply restart_run_concerns.
    - exists "Get "%string, (fun _ => nothing),
        (fun _ _ out calls => out = Returned tt /\ calls = []).
      split; [intros; apply vmStatusFunc_shape|]. split; [intros; apply nothing_shape|].
      intros z i out calls [_ ->]. constructor. }
  destruct X as [label [work [shape [Hh [Ha Hs]]]]]. rewrite Hh.
  pose proof (lifecycle_handler_calls C label (work fuel) shape req w (Ha fuel)) as H.
  cbv zeta in H. rewrite Hc in H. destruct H as [out [calls [S H]]].
  apply Hs in S. destruct out as [[]|e|].
  - destruct H as [r [_ [-> _]]]. eexists. split; [reflexivity|].
    apply Forall_app. split; [exact S|]. constructor; [now repeat split|constructor].
  - destruct H as [_ [-> _]]. now exists calls.
  - destruct H as [_ [-> _]]. now exists calls.
Qed.

Lemma probe_concerns p req zone instance w :
  In p (probes C) ->
  checked req = inr (zone, instance) ->
  exists calls,
    history (snd (p req w)) = history w ++ calls /\
    Forall (concerns (project C) zone instance) calls.
Proof.
  intros I Hc.
  destruct (probe_cases C p I) as [label [view [Hh Hv]]]. rewrite Hh.
  pose proof (probe_handler_run C label view req w) as H. cbv zeta in H.
  rewrite Hc in H.
  assert (G1 : forall g, Forall (concerns (project C) zone instance)
                           [CallGet (project C) zone instance g]).
  { intros g. constructor; [now repeat split|constructor]. }
  destruct (instancesClient_get C (history w) (project C) zone instance) as [inst|e].
  - destruct (address (resolve inst)) as [ip|].
    + assert (G2 : forall l, Forall (concerns (project C) zone instance)
                               ([CallGet (project C) zone instance (Resolved inst)]
                                ++ [CallLookup ip l])).
      { intros l. apply Forall_app. split; [apply G1|]. constructor; [exact Logic.I|constructor]. }
      destruct (mc_lookup C _ ip) as [mcsStatus|e] eqn:L.
      * destruct H as [w2 [H2 [_ ->]]]. destruct (Hv mcsStatus w2) as [_ [-> _]].
        rewrite H2, <- app_assoc. eexists. split; [reflexivity|apply G2].
      * destruct H as [_ [-> _]]. rewrite <- app_assoc. eexists.
        split; [reflexivity|apply G2].
    + destruct H as [_ [-> _]]. eexists. split; [reflexivity|apply G1].
  - destruct H as [_ [-> _]]. eexists. split; [reflexivity|apply G1].
Qed.

End Scope.

(** X15.  A request only ever touches its own instance: the zone and the
    instance that pass the check are not empty, and every call a route
    makes to the control plane, mutation, poll or fetch, is made for the
    project of the process, that zone and that instance. *)
Theorem calls_concern_the_request
    (C : Collaborators) (path : string) (h : nat -> Request.t -> Task unit)
    (fuel : nat) (req : Request.t) (zone instance : string) (w : World) :
  In (path, h) (app C) ->
  checked req = inr (zone, instance) ->
  zone <> ""%string /\ instance <> ""%string /\
  exists calls,
    history (snd (h fuel req w)) = history w ++ calls /\
    Forall (concerns (project C) zone instance) calls.
Proof.
  intros I Hc. destruct (checked_nonempty req zone instance Hc) as [Z N].
  split; [exact Z|]. split; [exact N|].
  destruct (route_cases C path h I) as [[M _]|[->|[p [Ip ->]]]].
  - exact (lifecycle_concerns C h fuel req zone instance w (mutating_is_lifecycle C h M) Hc).
  - apply (lifecycle_concerns C (fun _ => vmStatusFunc C) fuel req zone instance w);
      [cbn; tauto|exact Hc].
  - exact (probe_concerns C p req zone instance w Ip Hc).
Qed.

Lemma calls_concern_the_request_witness :
  "zone-a"%string <> ""%string /\ "vm-1"%string <> ""%string /\
  exists calls,
    history (snd (vmRestartFunc (Fake.collaborators Fake.smooth) 4 Fake.req initial))
      = [] ++ calls /\
    Forall (concerns "proj" "zone-a" "vm-1") calls.
Proof.
  exact (calls_concern_the_request (Fake.collaborators Fake.smooth) "/vm-restart"
           (vmRestartFunc (Fake.collaborators Fake.smooth)) 4 Fake.req "zone-a" "vm-1" initial
           (or_intror (or_intror (or_introl eq_refl))) eq_refl).
Defined.

(** ** Parameters and interfaces *)

(** X16.  A parameter is taken from the query when the query holds a value for
    it that is not empty, and from the body otherwise; the zone and the
    instance are looked up separately, so one may come from the query and
    the other from the body.  The check leaves the world as it is. *)
Theorem query_parameters_take_precedence
    (req : Request.t) (w : World) (zone instance : string) :
  fst (reqZoneInstance req w) = Returned (zone, instance) ->
  snd (reqZoneInstance req w) = w /\
  (forall q, Params.zone (Request.query req) = Some q -> q <> ""%string -> zone = q) /\
  (present (Params.zone (Request.query req)) = None ->
   exists b, Request.body req = Some b /\ Params.zone b = Some zone) /\
  (forall q, Params.instance (Request.query req) = Some q -> q <> ""%string ->
             instance = q) /\
  (present (Params.instance (Request.query req)) = None ->
   exists b, Request.body req = Some b /\ Params.instance b = Some instance).
Proof.
  rewrite reqZoneInstance_run. cbn [fst snd]. intros H. split; [reflexivity|].
  destruct (checked req) as [e|[z i]] eqn:Hc; [discriminate|]. injection H as -> ->.
  unfold checked in Hc. unfold param in Hc.
  destruct req as [[qz qi] body]. cbn in *.
  destruct qz as [[|c1 qz]|], qi as [[|c3 qi]|], body as [[[[|c2 bz]|] [[|c4 bi]|]]|];
    cbn in Hc; try discriminate; injection Hc as <- <-;
    repeat split; try discriminate; try reflexivity;
    try (intros q [= <-] Ne; solve [reflexivity | contradiction]);
    try (intros _; eexists; split; reflexivity).
Qed.

Lemma query_parameters_take_precedence_witness :
  let req := {| Request.query := {| Params.zone := Some "zone-q"%string;
                                    Params.instance := Some ""%string |};
                Request.body := Some {| Params.zone := Some "zone-b"%string;
                                        Params.instance := Some "vm-b"%string |} |} in
  snd (reqZoneInstance req initial) = initial /\
  (forall q, Params.zone (Request.query req) = Some q -> q <> ""%string ->
             "zone-q"%string = q) /\
  (present (Params.zone (Request.query req)) = None ->
   exists b, Request.body req = Some b /\ Params.zone b = Some "zone-q"%string) /\
  (forall q, Params.instance (Request.query req) = Some q -> q <> ""%string ->
             "vm-b"%string = q) /\
  (present (Params.instance (Request.query req)) = None ->
   exists b, Request.body req = Some b /\ Params.instance b = Some "vm-b"%string).
Proof.
  intros req.
  exact (query_parameters_take_precedence req initial "zone-q" "vm-b" eq_refl).
Defined.

(** X17.  Only the first network interface is read: when it has no access
    configuration the instance has no address, whatever the other
    interfaces hold, and [getVmIP] throws the address-not-found error. *)
Theorem later_interfaces_are_ignored
    (C : Collaborators) (zone instance : string) (w : World) (inst : IInstance.t)
    (ni : INetworkInterface.t) (nis : list INetworkInterface.t) :
  instancesClient_get C (history w) (project C) zone instance = Resolved inst ->
  IInstance.networkInterfaces inst = Some (ni :: nis) ->
  INetworkInterface.accessConfigs ni = None \/ INetworkInterface.accessConfigs ni = Some [] ->
  fst (getVmInstance C zone instance w) = Returned [None; present (IInstance.status inst)] /\
  fst (getVmIP C zone instance w) = Threw (not_found zone instance).
Proof.
  intros G N A.
  assert (F : first_natIP inst = None).
  { unfold first_natIP. rewrite N. now destruct A as [-> | ->]. }
  rewrite getVmInstance_run, getVmIP_run, G. cbn [fst resolve address status].
  now rewrite F.
Qed.

Lemma later_interfaces_are_ignored_witness :
  let inst :=
    {| IInstance.networkInterfaces :=
         Some [ {| INetworkInterface.accessConfigs := Some [] |};
                {| INetworkInterface.accessConfigs :=
                     Some [ {| IAccessConfig.natIP := Some "5.6.7.8"%string |} ] |} ];
       IInstance.status := Some "RUNNING"%string |} in
  let C := Fake.collaborators (Fake.script [] [inst] []) in
  fst (getVmInstance C "zone-a" "vm-1" initial) = Returned [None; Some "RUNNING"%string] /\
  fst (getVmIP C "zone-a" "vm-1" initial) = Threw (not_found "zone-a" "vm-1").
Proof.
  intros inst C.
  exact (later_interfaces_are_ignored C "zone-a" "vm-1" initial inst
           {| INetworkInterface.accessConfigs := Some [] |}
           [ {| INetworkInterface.accessConfigs :=
                  Some [ {| IAccessConfig.natIP := Some "5.6.7.8"%string |} ] |} ]
           eq_refl eq_refl (or_intror eq_refl)).
Defined.
